(** * Debt and hepatitis dashboard (app.py): data pipelines and their properties

    The script reads two tables, filters and aggregates them and draws two
    charts.  The tables are modelled as lists of records (a DataFrame is an
    ordered sequence of rows), the widget values as a session record, and the
    script itself as a computation in a small state-and-exception monad over
    the rendered page and the clock.

    Conventions: years and the debt values are integers ([Z]); the count
    column of the hepatitis table is a 64-bit integer column, so its sums
    wrap around; text cells are ASCII strings and an empty cell is [None];
    a cell of the refPeriod column holds a text or no text ([None]: an empty
    cell or a number); a date is any calendar date the parser accepts, years
    1 to 9999 (releases of the data library that keep timestamps in
    nanoseconds accept only 1677-10 .. 2262-04; nothing proved below depends
    on the difference except where a year before 1000 is named). *)

From Stdlib Require Import ZArith List String Ascii Bool Lia.
From Stdlib Require Import Permutation Sorted OrdersEx DecimalString DecimalZ.
Import ListNotations.
Open Scope Z_scope.

(** ** Exceptions and results *)

Inductive Exn : Type :=
| ValueError              (* int(float('nan')): cannot convert float NaN to integer *)
| StreamlitAPIException   (* st.slider refusing its arguments *)
| AttributeError.         (* .str on a column that is not text-typed *)

Inductive result (A : Type) : Type :=
| Ok (a : A)
| Raise (e : Exn).
Arguments Ok {A} a.
Arguments Raise {A} e.

Definition bind_result {A B} (r : result A) (k : A -> result B) : result B :=
  match r with
  | Ok a => k a
  | Raise e => Raise e
  end.

(** ** 1. Debt service pipeline *)

Module Debt.

(** One row of the debt table; only the three columns the script reads. *)
Record DebtRecord : Type := mkDebt {
  refPeriod : Z;
  Indicator_Code : string;
  Value : Z
}.

Definition INDICATOR : string := "DT.TDS.DPPG.CD".

(** df_debt[df_debt["Indicator Code"] == "DT.TDS.DPPG.CD"] *)
Definition has_indicator (r : DebtRecord) : bool :=
  String.eqb (Indicator_Code r) INDICATOR.

Definition select_indicator (df : list DebtRecord) : list DebtRecord :=
  filter has_indicator df.

(** df_debt.sort_values("refPeriod"): ascending by the key column.  Rows with
    equal keys are kept in their incoming order here; the properties below use
    only that the result is an ordered rearrangement of the rows. *)
Fixpoint insert_row (r : DebtRecord) (l : list DebtRecord) : list DebtRecord :=
  match l with
  | [] => [r]
  | x :: t =>
      if refPeriod r <=? refPeriod x then r :: l else x :: insert_row r t
  end.

Definition sort_values (df : list DebtRecord) : list DebtRecord :=
  fold_right insert_row [] df.

(** Series.min() / Series.max(): [None] stands for the NaN returned on an
    empty column. *)
Definition series_min (col : list Z) : option Z :=
  match col with
  | [] => None
  | x :: t => Some (fold_left Z.min t x)
  end.

Definition series_max (col : list Z) : option Z :=
  match col with
  | [] => None
  | x :: t => Some (fold_left Z.max t x)
  end.

(** int(...) applied to the scalar: NaN raises ValueError. *)
Definition py_int (v : option Z) : result Z :=
  match v with
  | Some z => Ok z
  | None => Raise ValueError
  end.

Definition min_year (df : list DebtRecord) : result Z :=
  py_int (series_min (map refPeriod df)).

Definition max_year (df : list DebtRecord) : result Z :=
  py_int (series_max (map refPeriod df)).

(** The arguments of the st.slider call. *)
Record SliderCall : Type := mkSlider {
  min_value : Z;
  max_value : Z;
  value : Z * Z
}.

Definition year_slider (lo hi : Z) : SliderCall :=
  mkSlider lo hi (1970, hi).

(** df_debt[(refPeriod >= year_range[0]) & (refPeriod <= year_range[1])] *)
Definition in_range (year_range : Z * Z) (r : DebtRecord) : bool :=
  (fst year_range <=? refPeriod r) && (refPeriod r <=? snd year_range).

Definition filter_range (year_range : Z * Z) (df : list DebtRecord)
  : list DebtRecord :=
  filter (in_range year_range) df.

(** Lines 43-46: the table the rest of the section works on. *)
Definition df_debt (csv : list DebtRecord) : list DebtRecord :=
  sort_values (select_indicator csv).

(** Lines 49-57: the slider the page asks for. *)
Definition slider_request (csv : list DebtRecord) : result SliderCall :=
  bind_result (min_year (df_debt csv)) (fun lo =>
  bind_result (max_year (df_debt csv)) (fun hi =>
  Ok (year_slider lo hi))).

(** The largest integer the browser represents exactly. *)
Definition MAX_SAFE_INTEGER : Z := 2 ^ 53 - 1.

(** What st.slider makes of its arguments: it refuses bounds that leave no
    range, puts an inverted default pair in order, widens the bounds so that
    they contain the default, and refuses bounds the browser cannot
    represent.  The result is the control as offered to the user. *)
Definition slider_widget (call : SliderCall) : result SliderCall :=
  if max_value call <=? min_value call then Raise StreamlitAPIException
  else
    let (a, b) := value call in
    let (start, stop) := if b <? a then (b, a) else (a, b) in
    let lo := Z.min start (min_value call) in
    let hi := Z.max stop (max_value call) in
    if (- MAX_SAFE_INTEGER <=? lo) && (hi <=? MAX_SAFE_INTEGER)
    then Ok (mkSlider lo hi (start, stop))
    else Raise StreamlitAPIException.

(** Lines 49-57: the control the page offers. *)
Definition year_widget (csv : list DebtRecord) : result SliderCall :=
  bind_result (slider_request csv) slider_widget.

(** Lines 43-62 with the slider's answer supplied by [pick], which sees the
    control as offered. *)
Definition df_debt_filtered (csv : list DebtRecord)
  (pick : SliderCall -> Z * Z) : result (list DebtRecord) :=
  bind_result (year_widget csv) (fun widget =>
  Ok (filter_range (pick widget) (df_debt csv))).

End Debt.

(** ** 2. Grouped sums (DataFrame.groupby(keys)[col].sum().reset_index()) *)

(** The count column is a 64-bit signed integer column: sums wrap around. *)
Definition wrap64 (z : Z) : Z := (z + 2 ^ 63) mod 2 ^ 64 - 2 ^ 63.

Definition add64 (a b : Z) : Z := wrap64 (a + b).

Definition sum64 (l : list Z) : Z := fold_left add64 l 0.

(** Group accumulators are kept in ascending key order; a new group starts
    from a zero accumulator. *)
Fixpoint add_group {K : Type} (cmp : K -> K -> comparison)
  (k : K) (v : Z) (acc : list (K * Z)) : list (K * Z) :=
  match acc with
  | [] => [(k, add64 0 v)]
  | (k', s) :: t =>
      match cmp k k' with
      | Lt => (k, add64 0 v) :: acc
      | Eq => (k', add64 s v) :: t
      | Gt => (k', s) :: add_group cmp k v t
      end
  end.

Definition groupby_sum {K : Type} (cmp : K -> K -> comparison)
  (rows : list (K * Z)) : list (K * Z) :=
  fold_left (fun acc kv => add_group cmp (fst kv) (snd kv) acc) rows [].

(** The total the rows carry for one key, as a specification of a group. *)
Definition group_total {K : Type} (cmp : K -> K -> comparison)
  (k : K) (rows : list (K * Z)) : Z :=
  sum64 (map snd (filter (fun kv => match cmp (fst kv) k with
                                    | Eq => true
                                    | _ => false
                                    end) rows)).

(** ** 3. Hepatitis pipeline *)

Module Hepatitis.

(** One row of the hepatitis table as read from the CSV. *)
Record HepatitisRecord : Type := mkHep {
  refPeriod : option string;   (* None: no text (an empty cell or a number) *)
  Number_of_cases : Z
}.

(** \d on the ASCII range. *)
Definition is_digit (c : ascii) : bool :=
  (48 <=? nat_of_ascii c)%nat && (nat_of_ascii c <=? 57)%nat.

Definition digit_val (c : ascii) : Z := Z.of_nat (nat_of_ascii c) - 48.

(** The pattern \d{2}-\d{4} anchored at the start of [s]. *)
Definition match_token (s : string) : option string :=
  match s with
  | String a (String b (String c (String d (String e (String f (String g _)))))) =>
      if is_digit a && is_digit b && Ascii.eqb c "-"
         && is_digit d && is_digit e && is_digit f && is_digit g
      then Some (String a (String b (String c (String d (String e
                   (String f (String g EmptyString)))))))
      else None
  | _ => None
  end.

(** Series.str.extract(r"(\d{2}-\d{4})"): the leftmost match, or missing. *)
Fixpoint str_extract (s : string) : option string :=
  match match_token s with
  | Some t => Some t
  | None =>
      match s with
      | EmptyString => None
      | String _ s' => str_extract s'
      end
  end.

(** The extraction on one cell of the column; a missing cell stays missing. *)
Definition extract_cell (cell : option string) : option string :=
  match cell with
  | Some s => str_extract s
  | None => None
  end.

(** A first-of-month timestamp. *)
Record Timestamp : Type := mkTs {
  year : Z;
  month : Z
}.

Definition ts_compare (a b : Timestamp) : comparison :=
  match year a ?= year b with
  | Eq => month a ?= month b
  | c => c
  end.

(** %Y : exactly four digits. *)
Definition parse_Y (s : string) : option Z :=
  match s with
  | String a (String b (String c (String d EmptyString))) =>
      if is_digit a && is_digit b && is_digit c && is_digit d
      then Some (1000 * digit_val a + 100 * digit_val b
                 + 10 * digit_val c + digit_val d)
      else None
  | _ => None
  end.

(** %m followed by the literal hyphen: 1[0-2] | 0[1-9] | [1-9], tried in
    this order; returns the month and the rest of the text. *)
Definition parse_m_dash (s : string) : option (Z * string) :=
  match s with
  | String a (String b (String c rest)) =>
      if Ascii.eqb c "-" &&
         ((Ascii.eqb a "1" && (digit_val b <=? 2) && is_digit b)
          || (Ascii.eqb a "0" && (1 <=? digit_val b) && is_digit b))
      then Some (10 * digit_val a + digit_val b, rest)
      else if Ascii.eqb b "-" && is_digit a && (1 <=? digit_val a)
      then Some (digit_val a, String c rest)
      else None
  | String a (String b rest) =>
      if Ascii.eqb b "-" && is_digit a && (1 <=? digit_val a)
      then Some (digit_val a, rest)
      else None
  | _ => None
  end.

(** The parser builds a calendar date from the fields it read: the year
    must lie between 1 and 9999 (the month was checked by the format). *)
Definition in_bounds (y m : Z) : bool :=
  (1 <=? y) && (y <=? 9999).

(** pd.to_datetime(col, format="%m-%Y", errors="coerce") on one cell:
    a missing cell, a text that does not match the format and a date out of
    bounds all give NaT ([None]). *)
Definition to_datetime (cell : option string) : option Timestamp :=
  match cell with
  | None => None
  | Some s =>
      match parse_m_dash s with
      | None => None
      | Some (m, rest) =>
          match parse_Y rest with
          | None => None
          | Some y => if in_bounds y m then Some (mkTs y m) else None
          end
      end
  end.

(** str(int) *)
Definition py_str (z : Z) : string := NilZero.string_of_int (Z.to_int z).

(** The .str accessor of line 107 works on a text-typed column only: a
    table without rows has one, a table with rows has one exactly when some
    cell holds a text (a column of empty cells or of numbers is numeric). *)
Definition has_text (r : HepatitisRecord) : bool :=
  match refPeriod r with
  | Some _ => true
  | None => false
  end.

Definition text_typed (csv : list HepatitisRecord) : bool :=
  match csv with
  | [] => true
  | _ => existsb has_text csv
  end.

Definition str_accessor (csv : list HepatitisRecord) : result unit :=
  if text_typed csv then Ok tt else Raise AttributeError.

(** A row after lines 107-116: refPeriod replaced by the extracted token,
    Date and Year added, rows without a Date dropped. *)
Record Dated : Type := mkDated {
  token : option string;
  Date : Timestamp;
  Year : string;
  cases : Z
}.

Definition date_row (r : HepatitisRecord) : option Dated :=
  let tok := extract_cell (refPeriod r) in
  match to_datetime tok with
  | None => None                      (* dropna(subset=["Date"]) *)
  | Some d => Some (mkDated tok d (py_str (year d)) (Number_of_cases r))
  end.

Fixpoint df_hepatitis (csv : list HepatitisRecord) : list Dated :=
  match csv with
  | [] => []
  | r :: t =>
      match date_row r with
      | Some d => d :: df_hepatitis t
      | None => df_hepatitis t
      end
  end.

(** Keys of groupby(["Date", "Year"]): ordered by Date, then by Year. *)
Definition key_compare (a b : Timestamp * string) : comparison :=
  match ts_compare (fst a) (fst b) with
  | Eq => String_as_OT.compare (snd a) (snd b)
  | c => c
  end.

Record CaseBucket : Type := mkBucket {
  b_Date : Timestamp;
  b_Year : string;
  b_cases : Z
}.

Definition bucket_of (g : (Timestamp * string) * Z) : CaseBucket :=
  mkBucket (fst (fst g)) (snd (fst g)) (snd g).

(** Line 119. *)
Definition cases_over_time (df : list Dated) : list CaseBucket :=
  map bucket_of
    (groupby_sum key_compare (map (fun r => ((Date r, Year r), cases r)) df)).

(** Series.unique(): first occurrences, in order of appearance. *)
Fixpoint unique (l : list string) : list string :=
  match l with
  | [] => []
  | x :: t => x :: filter (fun y => negb (String.eqb y x)) (unique t)
  end.

(** sorted(...) on strings. *)
Fixpoint insert_str (x : string) (l : list string) : list string :=
  match l with
  | [] => [x]
  | y :: t =>
      match String_as_OT.compare x y with
      | Gt => y :: insert_str x t
      | _ => x :: l
      end
  end.

Definition sorted (l : list string) : list string :=
  fold_right insert_str [] l.

(** Line 126. *)
Definition years_available (cot : list CaseBucket) : list string :=
  sorted (unique (map b_Year cot)).

(** Line 133: cases_over_time[cases_over_time["Year"].isin(years_selected)] *)
Definition isin (sel : list string) (y : string) : bool :=
  existsb (String.eqb y) sel.

Definition cases_filtered (cot : list CaseBucket) (years_selected : list string)
  : list CaseBucket :=
  filter (fun b => isin years_selected (b_Year b)) cot.

(** Line 145: cases_filtered.groupby("Year")["Number of cases"].sum() *)
Definition yearly_cases (cf : list CaseBucket) : list (string * Z) :=
  groupby_sum String_as_OT.compare (map (fun b => (b_Year b, b_cases b)) cf).

Inductive View : Type :=
| Monthly_Cases
| Yearly_Totals.

(** A bar of px.bar: its x value, its height and its colour key. *)
Inductive XValue : Type :=
| XDate (d : Timestamp)
| XYear (y : string).

Record Bar : Type := mkBar {
  bar_x : XValue;
  bar_y : Z;
  bar_color : string
}.

(** Lines 144-163. *)
Definition figure (aggregation : View) (cf : list CaseBucket) : list Bar :=
  match aggregation with
  | Yearly_Totals =>
      map (fun g => mkBar (XYear (fst g)) (snd g) (fst g)) (yearly_cases cf)
  | Monthly_Cases =>
      map (fun b => mkBar (XDate (b_Date b)) (b_cases b) (b_Year b)) cf
  end.

End Hepatitis.

(** ** 4. The page and the script *)

Module App.

Inductive Element : Type :=
| Static                                        (* title, header, markdown *)
| Slider (call : Debt.SliderCall)
| LineChart (data : list Debt.DebtRecord)       (* x = refPeriod, y = Value *)
| Multiselect (options default : list string)
| Radio
| BarChart (bars : list Hepatitis.Bar)
| Button
| Empty                                         (* st.empty() *)
| Success (text : string).

(** What a run touches: the elements drawn so far and the clock (in ms). *)
Record World : Type := mkWorld {
  page : list Element;
  clock : Z
}.

(** Widget values held by the session; [None] is an untouched widget. *)
Record Session : Type := mkSession {
  slider_state : option (Z * Z);
  multiselect_state : option (list string);
  radio_state : option Hepatitis.View;
  button_state : bool
}.

Definition Script (A : Type) : Type := World -> World * result A.

Definition ret {A} (a : A) : Script A := fun w => (w, Ok a).

Definition bind {A B} (m : Script A) (k : A -> Script B) : Script B :=
  fun w =>
    match m w with
    | (w', Ok a) => k a w'
    | (w', Raise e) => (w', Raise e)
    end.

Notation "x <- m ;; k" := (bind m (fun x => k))
  (at level 61, m at next level, right associativity).
Notation "m ;; k" := (bind m (fun _ => k))
  (at level 61, right associativity).

Definition lift {A} (r : result A) : Script A := fun w => (w, r).

Definition emit (e : Element) : Script unit :=
  fun w => (mkWorld (page w ++ [e]) (clock w), Ok tt).

(** placeholder.success(text): the placeholder is the last element drawn. *)
Definition placeholder_success (text : string) : Script unit :=
  fun w => (mkWorld (removelast (page w) ++ [Success text]) (clock w), Ok tt).

(** time.sleep *)
Definition sleep (ms : Z) : Script unit :=
  fun w => (mkWorld (page w) (clock w + ms), Ok tt).

(** What st.slider returns: the value held by the session, or the default. *)
Definition slider_value (s : Session) (call : Debt.SliderCall) : Z * Z :=
  match slider_state s with
  | Some v => v
  | None => Debt.value call
  end.

Definition st_slider (s : Session) (call : Debt.SliderCall) : Script (Z * Z) :=
  widget <- lift (Debt.slider_widget call) ;;
  emit (Slider widget) ;;
  ret (slider_value s widget).

Definition multiselect_value (s : Session) (default : list string)
  : list string :=
  match multiselect_state s with
  | Some v => v
  | None => default
  end.

Definition st_multiselect (s : Session) (options default : list string)
  : Script (list string) :=
  emit (Multiselect options default) ;;
  ret (multiselect_value s default).

Definition radio_value (s : Session) : Hepatitis.View :=
  match radio_state s with
  | Some v => v
  | None => Hepatitis.Monthly_Cases      (* the first option *)
  end.

Definition st_radio (s : Session) : Script Hepatitis.View :=
  emit Radio ;;
  ret (radio_value s).

Definition st_button (s : Session) : Script bool :=
  emit Button ;;
  ret (button_state s).

(** str.split() *)
Definition is_space (c : ascii) : bool :=
  let n := nat_of_ascii c in
  ((9 <=? n) && (n <=? 13) || (28 <=? n) && (n <=? 32))%nat.

Fixpoint split_from (s word : string) : list string :=
  match s with
  | EmptyString => match word with EmptyString => [] | _ => [word] end
  | String c s' =>
      if is_space c
      then match word with
           | EmptyString => split_from s' EmptyString
           | _ => word :: split_from s' EmptyString
           end
      else split_from s' (word ++ String c EmptyString)
  end.

Definition split (s : string) : list string := split_from s EmptyString.

Definition message : string :=
  "From debt to disease, I hope you learned something new! :)".

(** Lines 189-192. *)
Fixpoint reveal (words : list string) (text : string) : Script unit :=
  match words with
  | [] => ret tt
  | word :: rest =>
      let text := (text ++ word ++ " ")%string in
      placeholder_success text ;;
      sleep 150 ;;
      reveal rest text
  end.

(** The debt section, lines 24-84. *)
Definition debt_section (csv : list Debt.DebtRecord) (s : Session)
  : Script unit :=
  emit Static ;;
  emit Static ;;
  let df_debt := Debt.df_debt csv in
  min_year <- lift (Debt.min_year df_debt) ;;
  max_year <- lift (Debt.max_year df_debt) ;;
  year_range <- st_slider s (Debt.year_slider min_year max_year) ;;
  emit (LineChart (Debt.filter_range year_range df_debt)) ;;
  emit Static.

(** The cases view of the hepatitis section for given widget values. *)
Definition hepatitis_bars (csv : list Hepatitis.HepatitisRecord)
  (years_selected : list string) (aggregation : Hepatitis.View)
  : list Hepatitis.Bar :=
  let cot := Hepatitis.cases_over_time (Hepatitis.df_hepatitis csv) in
  Hepatitis.figure aggregation (Hepatitis.cases_filtered cot years_selected).

(** The hepatitis section, lines 89-178. *)
Definition hepatitis_section (csv : list Hepatitis.HepatitisRecord)
  (s : Session) : Script unit :=
  emit Static ;;
  emit Static ;;
  lift (Hepatitis.str_accessor csv) ;;
  let cot := Hepatitis.cases_over_time (Hepatitis.df_hepatitis csv) in
  let years_available := Hepatitis.years_available cot in
  years_selected <- st_multiselect s years_available years_available ;;
  aggregation <- st_radio s ;;
  emit (BarChart (hepatitis_bars csv years_selected aggregation)) ;;
  emit Static.

(** Lines 183-192. *)
Definition closing (s : Session) : Script unit :=
  pressed <- st_button s ;;
  if pressed
  then emit Empty ;; reveal (split message) EmptyString
  else ret tt.

(** The whole script, top to bottom. *)
Definition app (debt_csv : list Debt.DebtRecord)
  (hep_csv : list Hepatitis.HepatitisRecord) (s : Session) : Script unit :=
  emit Static ;;
  emit Static ;;
  debt_section debt_csv s ;;
  hepatitis_section hep_csv s ;;
  closing s.

(** One run: the page starts empty, the clock reads [now]. *)
Definition run (debt_csv : list Debt.DebtRecord)
  (hep_csv : list Hepatitis.HepatitisRecord) (s : Session) (now : Z)
  : World * result unit :=
  app debt_csv hep_csv s (mkWorld [] now).

Definition is_chart (e : Element) : bool :=
  match e with
  | LineChart _ | BarChart _ => true
  | _ => false
  end.

(** The chart data a run has drawn. *)
Definition charts (w : World) : list Element := filter is_chart (page w).

End App.

(** ** 5. Notions used to state the properties *)

(** Plain (unbounded) sum of a column. *)
Definition sumZ (l : list Z) : Z := fold_right Z.add 0 l.

(** Ascending order on the period column. *)
Definition period_le (a b : Debt.DebtRecord) : Prop :=
  Debt.refPeriod a <= Debt.refPeriod b.

Definition is_indicator_row (r : Debt.DebtRecord) : Prop :=
  Debt.Indicator_Code r = Debt.INDICATOR.

(** Two digits, a hyphen, four digits. *)
Definition token_shape (t : string) : Prop :=
  exists a b d e f g,
    t = String a (String b (String "-" (String d (String e (String f
          (String g EmptyString)))))) /\
    Hepatitis.is_digit a = true /\ Hepatitis.is_digit b = true /\
    Hepatitis.is_digit d = true /\ Hepatitis.is_digit e = true /\
    Hepatitis.is_digit f = true /\ Hepatitis.is_digit g = true.

(** [t] is the substring of [s] that starts at offset [n]. *)
Definition occurs_at (t s : string) (n : nat) : Prop :=
  exists pre post, s = (pre ++ t ++ post)%string /\ String.length pre = n.

(** The first substring of [s] of the token shape. *)
Definition first_token (s t : string) : Prop :=
  token_shape t /\
  exists n, occurs_at t s n /\
    forall t' n', token_shape t' -> occurs_at t' s n' -> (n <= n')%nat.

(** A refPeriod from which no month-year can be read. *)
Definition no_month_year (cell : option string) : Prop :=
  match cell with
  | None => True
  | Some s =>
      (forall t n, token_shape t -> ~ occurs_at t s n) \/
      (exists t, first_token s t /\ Hepatitis.to_datetime (Some t) = None)
  end.

(** Strictly ascending keys of an accumulator list. *)
Definition keys_ascending {K : Type} (cmp : K -> K -> comparison)
  (l : list (K * Z)) : Prop :=
  StronglySorted (fun a b => cmp a b = Lt) (map fst l).

(** The total stored for a key, if any. *)
Fixpoint lookup {K : Type} (cmp : K -> K -> comparison) (k : K)
  (l : list (K * Z)) : option Z :=
  match l with
  | [] => None
  | (k', s) :: t =>
      match cmp k k' with
      | Eq => Some s
      | _ => lookup cmp k t
      end
  end.

(** The accumulator a key has reached: zero before its first row. *)
Definition stored (o : option Z) : Z :=
  match o with Some s => s | None => 0 end.

Definition has_key {K : Type} (cmp : K -> K -> comparison) (k : K)
  (rows : list (K * Z)) : bool :=
  existsb (fun kv => match cmp (fst kv) k with Eq => true | _ => false end) rows.

(** A group whose Year label is the year of its Date. *)
Definition year_of_date (g : (Hepatitis.Timestamp * string) * Z) : Prop :=
  snd (fst g) = Hepatitis.py_str (Hepatitis.year (fst (fst g))).

(** A (Date, Year) group seen as a group of its Date alone. *)
Definition by_date (g : (Hepatitis.Timestamp * string) * Z)
  : Hepatitis.Timestamp * Z :=
  (fst (fst g), snd g).

(** The key and count columns of the dated rows, as line 119 groups them,
    and as a grouping by Date alone or by Year alone would read them. *)
Definition date_year_rows (df : list Hepatitis.Dated)
  : list ((Hepatitis.Timestamp * string) * Z) :=
  map (fun r => ((Hepatitis.Date r, Hepatitis.Year r), Hepatitis.cases r)) df.

Definition date_rows (df : list Hepatitis.Dated)
  : list (Hepatitis.Timestamp * Z) :=
  map (fun r => (Hepatitis.Date r, Hepatitis.cases r)) df.

Definition year_rows (df : list Hepatitis.Dated) : list (string * Z) :=
  map (fun r => (Hepatitis.Year r, Hepatitis.cases r)) df.

(** The (Date, Year) keys of a selected year [k]. *)
Definition selected_year (sel : list string) (k : string)
  (key : Hepatitis.Timestamp * string) : bool :=
  Hepatitis.isin sel (snd key)
  && match String_as_OT.compare (snd key) k with Eq => true | _ => false end.

(** The dated rows of the selected years. *)
Definition retained (sel : list string) (df : list Hepatitis.Dated)
  : list Hepatitis.Dated :=
  filter (fun r => Hepatitis.isin sel (Hepatitis.Year r)) df.

(** The key and count columns of the buckets, as line 145 groups them. *)
Definition bucket_rows (cf : list Hepatitis.CaseBucket) : list (string * Z) :=
  map (fun b => (Hepatitis.b_Year b, Hepatitis.b_cases b)) cf.

(** ** 6. Sample tables *)

(** Debt rows for the years 1970, 1980 and 2022 of the indicator, given out
    of order, and one row of another indicator. *)
Definition sample_debt : list Debt.DebtRecord :=
  [Debt.mkDebt 1980 "DT.TDS.DPPG.CD" 50;
   Debt.mkDebt 1975 "NY.GDP.MKTP.CD" 7;
   Debt.mkDebt 2022 "DT.TDS.DPPG.CD" 0;
   Debt.mkDebt 1970 "DT.TDS.DPPG.CD" 5].

(** A debt table the indicator does not occur in. *)
Definition other_debt : list Debt.DebtRecord :=
  [Debt.mkDebt 1975 "NY.GDP.MKTP.CD" 7; Debt.mkDebt 1980 "NY.GDP.MKTP.CD" 9].

(** A debt table that starts after 1970. *)
Definition late_debt : list Debt.DebtRecord :=
  [Debt.mkDebt 1995 "DT.TDS.DPPG.CD" 12; Debt.mkDebt 1990 "DT.TDS.DPPG.CD" 3].

(** A debt table with a single year of the indicator. *)
Definition one_year_debt : list Debt.DebtRecord :=
  [Debt.mkDebt 1970 "DT.TDS.DPPG.CD" 1].

(** A debt table that ends before 1970. *)
Definition early_debt : list Debt.DebtRecord :=
  [Debt.mkDebt 1950 "DT.TDS.DPPG.CD" 4; Debt.mkDebt 1960 "DT.TDS.DPPG.CD" 6].

(** A hepatitis table whose refPeriod cells are all empty. *)
Definition blank_hepatitis : list Hepatitis.HepatitisRecord :=
  [Hepatitis.mkHep None 3].

(** A hepatitis table of the year 999. *)
Definition old_hepatitis : list Hepatitis.HepatitisRecord :=
  [Hepatitis.mkHep (Some "01-0999"%string) 5].

Definition sample_hepatitis : list Hepatitis.HepatitisRecord :=
  [Hepatitis.mkHep (Some "01-2015"%string) 10;
   Hepatitis.mkHep (Some "13-2015"%string) 5].

(** ** 7. Further notions *)

(** The rows of one month. *)
Definition same_date (d : Hepatitis.Timestamp) (r : Hepatitis.Dated) : bool :=
  match Hepatitis.ts_compare (Hepatitis.Date r) d with
  | Eq => true
  | _ => false
  end.

(** Chronological order of buckets. *)
Definition date_before (a b : Hepatitis.CaseBucket) : Prop :=
  Hepatitis.ts_compare (Hepatitis.b_Date a) (Hepatitis.b_Date b) = Lt.

(** Strict order of year labels. *)
Definition str_lt (a b : string) : Prop := String_as_OT.compare a b = Lt.

(** The text the reveal loop has built after the given words. *)
Fixpoint spaced (words : list string) : string :=
  match words with
  | [] => EmptyString
  | word :: rest => (word ++ " " ++ spaced rest)%string
  end.

(** The value of the digits of a token dd-dddd: its month and its year. *)
Definition token_month (a b : ascii) : Z :=
  10 * Hepatitis.digit_val a + Hepatitis.digit_val b.

Definition token_year (d e f g : ascii) : Z :=
  1000 * Hepatitis.digit_val d + 100 * Hepatitis.digit_val e
  + 10 * Hepatitis.digit_val f + Hepatitis.digit_val g.

(** A table whose months come out of order and repeat. *)
Definition mixed_hepatitis : list Hepatitis.HepatitisRecord :=
  [Hepatitis.mkHep (Some "03-2016"%string) 7;
   Hepatitis.mkHep (Some "01-2015"%string) 10;
   Hepatitis.mkHep (Some "no date"%string) 2;
   Hepatitis.mkHep (Some "01-2015"%string) 1].

(** Unfolding of the script monad in proofs. *)
Ltac run_script :=
  unfold App.bind, App.emit, App.lift, App.ret; simpl;
  rewrite <- ?app_assoc; simpl.

(** * Properties *)

(** ** Debt pipeline *)

Lemma insert_row_perm (r : Debt.DebtRecord) (l : list Debt.DebtRecord) :
  Permutation (Debt.insert_row r l) (r :: l).
Proof.
  induction l as [|x t IH]; simpl.
  - apply Permutation_refl.
  - destruct (Debt.refPeriod r <=? Debt.refPeriod x).
    + apply Permutation_refl.
    + eapply perm_trans; [apply perm_skip, IH | apply perm_swap].
Qed.

Lemma sort_values_perm (df : list Debt.DebtRecord) :
  Permutation (Debt.sort_values df) df.
Proof.
  induction df as [|r t IH]; simpl.
  - constructor.
  - eapply perm_trans; [apply insert_row_perm | now apply perm_skip].
Qed.

Lemma insert_row_sorted (r : Debt.DebtRecord) (l : list Debt.DebtRecord) :
  StronglySorted period_le l -> StronglySorted period_le (Debt.insert_row r l).
Proof.
  induction 1 as [|x t Hs IH Hx]; simpl.
  - repeat constructor.
  - destruct (Debt.refPeriod r <=? Debt.refPeriod x) eqn:E.
    + apply Z.leb_le in E. constructor.
      * now constructor.
      * constructor; [exact E|].
        rewrite Forall_forall in Hx |- *. intros y Hy.
        specialize (Hx y Hy). unfold period_le in *. lia.
    + apply Z.leb_gt in E. constructor; [exact IH|].
      rewrite Forall_forall in Hx |- *. intros y Hy.
      apply (Permutation_in _ (insert_row_perm r t)) in Hy.
      destruct Hy as [<-|Hy]; [unfold period_le; lia | auto].
Qed.

Lemma sort_values_sorted (df : list Debt.DebtRecord) :
  StronglySorted period_le (Debt.sort_values df).
Proof.
  induction df as [|r t IH]; simpl; [constructor | now apply insert_row_sorted].
Qed.

Lemma filter_sorted {A} (R : A -> A -> Prop) (p : A -> bool) (l : list A) :
  StronglySorted R l -> StronglySorted R (filter p l).
Proof.
  induction 1 as [|x t Hs IH Hx]; simpl; [constructor|].
  destruct (p x); [|exact IH].
  constructor; [exact IH|].
  rewrite Forall_forall in Hx |- *. intros y Hy.
  apply filter_In in Hy. now apply Hx.
Qed.

Lemma filter_perm {A} (p : A -> bool) (l l' : list A) :
  Permutation l l' -> Permutation (filter p l) (filter p l').
Proof.
  induction 1; simpl.
  - constructor.
  - destruct (p x); [now apply perm_skip | assumption].
  - destruct (p x), (p y); try apply Permutation_refl. apply perm_swap.
  - eapply perm_trans; eassumption.
Qed.

Lemma filter_filter {A} (p q : A -> bool) (l : list A) :
  filter p (filter q l) = filter (fun x => q x && p x) l.
Proof.
  induction l as [|x t IH]; simpl; [reflexivity|].
  destruct (q x); simpl; [destruct (p x)|]; now rewrite IH.
Qed.

Lemma has_indicator_true (r : Debt.DebtRecord) :
  Debt.has_indicator r = true <-> is_indicator_row r.
Proof. apply String.eqb_eq. Qed.

Lemma fold_min_le (l : list Z) (a : Z) :
  fold_left Z.min l a <= a /\ Forall (fun x => fold_left Z.min l a <= x) l.
Proof.
  revert a. induction l as [|x t IH]; intros a; simpl.
  - split; [lia | constructor].
  - destruct (IH (Z.min a x)) as [H1 H2]. split; [lia|].
    constructor; [lia | exact H2].
Qed.

Lemma fold_min_in (l : list Z) (a : Z) : In (fold_left Z.min l a) (a :: l).
Proof.
  revert a. induction l as [|x t IH]; intros a; simpl.
  - now left.
  - destruct (IH (Z.min a x)) as [H|H].
    + destruct (Z.min_spec a x) as [[_ E]|[_ E]];
        [left | right; left]; congruence.
    + right; right; exact H.
Qed.

Lemma fold_max_ge (l : list Z) (a : Z) :
  a <= fold_left Z.max l a /\ Forall (fun x => x <= fold_left Z.max l a) l.
Proof.
  revert a. induction l as [|x t IH]; intros a; simpl.
  - split; [lia | constructor].
  - destruct (IH (Z.max a x)) as [H1 H2]. split; [lia|].
    constructor; [lia | exact H2].
Qed.

Lemma fold_max_in (l : list Z) (a : Z) : In (fold_left Z.max l a) (a :: l).
Proof.
  revert a. induction l as [|x t IH]; intros a; simpl.
  - now left.
  - destruct (IH (Z.max a x)) as [H|H].
    + destruct (Z.max_spec a x) as [[_ E]|[_ E]];
        [right; left | left]; congruence.
    + right; right; exact H.
Qed.

(** min_year succeeds exactly on a non-empty table, with the least period. *)
Lemma min_year_ok (df : list Debt.DebtRecord) :
  df <> [] ->
  exists lo, Debt.min_year df = Ok lo /\
    In lo (map Debt.refPeriod df) /\
    Forall (fun r => lo <= Debt.refPeriod r) df.
Proof.
  destruct df as [|r t]; [congruence|]. intros _.
  unfold Debt.min_year. simpl.
  eexists; split; [reflexivity|]. split.
  - apply (fold_min_in (map Debt.refPeriod t) (Debt.refPeriod r)).
  - destruct (fold_min_le (map Debt.refPeriod t) (Debt.refPeriod r)) as [H1 H2].
    constructor; [exact H1|]. now rewrite Forall_map in H2.
Qed.

Lemma max_year_ok (df : list Debt.DebtRecord) :
  df <> [] ->
  exists hi, Debt.max_year df = Ok hi /\
    In hi (map Debt.refPeriod df) /\
    Forall (fun r => Debt.refPeriod r <= hi) df.
Proof.
  destruct df as [|r t]; [congruence|]. intros _.
  unfold Debt.max_year. simpl.
  eexists; split; [reflexivity|]. split.
  - apply (fold_max_in (map Debt.refPeriod t) (Debt.refPeriod r)).
  - destruct (fold_max_ge (map Debt.refPeriod t) (Debt.refPeriod r)) as [H1 H2].
    constructor; [exact H1|]. now rewrite Forall_map in H2.
Qed.

Lemma df_debt_nil (csv : list Debt.DebtRecord) :
  Debt.df_debt csv = [] <-> Debt.select_indicator csv = [].
Proof.
  unfold Debt.df_debt. split; intros H.
  - apply Permutation_nil. rewrite <- H. apply sort_values_perm.
  - now rewrite H.
Qed.

Lemma df_debt_in (csv : list Debt.DebtRecord) (r : Debt.DebtRecord) :
  In r (Debt.df_debt csv) <-> In r csv /\ is_indicator_row r.
Proof.
  unfold Debt.df_debt, Debt.select_indicator.
  rewrite <- has_indicator_true, <- filter_In. split; intros H.
  - eapply Permutation_in; [apply sort_values_perm | exact H].
  - eapply Permutation_in; [apply Permutation_sym, sort_values_perm | exact H].
Qed.

(** ** The script, section by section *)

(** The debt section stops at the min/max computation or at the slider,
    having drawn only static text, or draws the slider and the line chart. *)
Lemma debt_section_run (csv : list Debt.DebtRecord) (s : App.Session)
  (w : App.World) :
  App.debt_section csv s w =
  match Debt.year_widget csv with
  | Ok widget =>
      (App.mkWorld
         (App.page w ++
          [App.Static; App.Static; App.Slider widget;
           App.LineChart
             (Debt.filter_range (App.slider_value s widget) (Debt.df_debt csv));
           App.Static])
         (App.clock w), Ok tt)
  | Raise e =>
      (App.mkWorld (App.page w ++ [App.Static; App.Static]) (App.clock w),
       Raise e)
  end.
Proof.
  unfold App.debt_section, Debt.year_widget, Debt.slider_request, App.st_slider.
  destruct (Debt.min_year (Debt.df_debt csv)) as [lo|e]; cbn [bind_result].
  - destruct (Debt.max_year (Debt.df_debt csv)) as [hi|e]; cbn [bind_result].
    + unfold App.bind, App.emit, App.lift, App.ret.
      cbn [App.page App.clock].
      destruct (Debt.slider_widget (Debt.year_slider lo hi)) as [widget|e];
        cbn [App.page App.clock]; rewrite <- ?app_assoc; reflexivity.
    + run_script. reflexivity.
  - run_script. reflexivity.
Qed.

(** The hepatitis section stops at the .str accessor, having drawn only
    static text, or draws its two controls and the bar chart. *)
Lemma hepatitis_section_run (csv : list Hepatitis.HepatitisRecord)
  (s : App.Session) (w : App.World) :
  App.hepatitis_section csv s w =
  if Hepatitis.text_typed csv
  then
    let ya := Hepatitis.years_available
                (Hepatitis.cases_over_time (Hepatitis.df_hepatitis csv)) in
    (App.mkWorld
       (App.page w ++
        [App.Static; App.Static; App.Multiselect ya ya; App.Radio;
         App.BarChart
           (App.hepatitis_bars csv (App.multiselect_value s ya)
              (App.radio_value s));
         App.Static])
       (App.clock w), Ok tt)
  else
    (App.mkWorld (App.page w ++ [App.Static; App.Static]) (App.clock w),
     Raise AttributeError).
Proof.
  unfold App.hepatitis_section, Hepatitis.str_accessor,
    App.st_multiselect, App.st_radio.
  destruct (Hepatitis.text_typed csv); run_script; reflexivity.
Qed.

(** The reveal loop only rewrites the placeholder and advances the clock. *)
Lemma reveal_run (words : list string) :
  forall (text : string) (p : list App.Element) (e : App.Element) (c : Z),
    App.is_chart e = false ->
    exists e' c',
      App.reveal words text (App.mkWorld (p ++ [e]) c)
      = (App.mkWorld (p ++ [e']) c', Ok tt) /\
      App.is_chart e' = false.
Proof.
  induction words as [|word rest IH]; intros text p e c He; simpl.
  - exists e, c. split; [reflexivity | exact He].
  - unfold App.bind at 1. unfold App.placeholder_success at 1. simpl.
    rewrite removelast_last.
    unfold App.bind at 1. unfold App.sleep at 1. simpl.
    apply IH. reflexivity.
Qed.

Lemma closing_run (s : App.Session) (w : App.World) :
  exists q c',
    App.closing s w = (App.mkWorld (App.page w ++ q) c', Ok tt) /\
    filter App.is_chart q = [].
Proof.
  unfold App.closing, App.st_button.
  destruct (App.button_state s).
  - destruct (reveal_run (App.split App.message) EmptyString
                (App.page w ++ [App.Button]) App.Empty (App.clock w) eq_refl)
      as (e' & c' & Hr & He).
    exists [App.Button; e'], c'. split.
    + unfold App.bind, App.emit, App.ret. cbn [App.page App.clock fst snd].
      rewrite Hr. now rewrite <- app_assoc.
    + simpl. now rewrite He.
  - exists [App.Button], (App.clock w). split; [|reflexivity].
    unfold App.bind, App.emit, App.ret. reflexivity.
Qed.

(** The page of a whole run and how the run ends. *)
Lemma run_page (debt_csv : list Debt.DebtRecord)
  (hep_csv : list Hepatitis.HepatitisRecord) (s : App.Session) (now : Z) :
  match Debt.year_widget debt_csv with
  | Ok widget =>
      if Hepatitis.text_typed hep_csv
      then
        exists q c',
          App.run debt_csv hep_csv s now =
          (App.mkWorld
             ([App.Static; App.Static; App.Static; App.Static;
               App.Slider widget;
               App.LineChart
                 (Debt.filter_range (App.slider_value s widget)
                    (Debt.df_debt debt_csv));
               App.Static; App.Static; App.Static;
               App.Multiselect
                 (Hepatitis.years_available
                    (Hepatitis.cases_over_time (Hepatitis.df_hepatitis hep_csv)))
                 (Hepatitis.years_available
                    (Hepatitis.cases_over_time (Hepatitis.df_hepatitis hep_csv)));
               App.Radio;
               App.BarChart
                 (App.hepatitis_bars hep_csv
                    (App.multiselect_value s
                       (Hepatitis.years_available
                          (Hepatitis.cases_over_time
                             (Hepatitis.df_hepatitis hep_csv))))
                    (App.radio_value s));
               App.Static] ++ q) c', Ok tt) /\
          filter App.is_chart q = []
      else
        App.run debt_csv hep_csv s now =
        (App.mkWorld
           [App.Static; App.Static; App.Static; App.Static;
            App.Slider widget;
            App.LineChart
              (Debt.filter_range (App.slider_value s widget)
                 (Debt.df_debt debt_csv));
            App.Static; App.Static; App.Static] now,
         Raise AttributeError)
  | Raise e =>
      App.run debt_csv hep_csv s now =
      (App.mkWorld [App.Static; App.Static; App.Static; App.Static] now,
       Raise e)
  end.
Proof.
  remember (App.run debt_csv hep_csv s now) as r eqn:Hr.
  unfold App.run, App.app in Hr.
  unfold App.bind at 1 in Hr. unfold App.emit at 1 in Hr.
  cbn [App.page App.clock] in Hr.
  unfold App.bind at 1 in Hr. unfold App.emit at 1 in Hr.
  cbn [App.page App.clock] in Hr.
  unfold App.bind at 1 in Hr. rewrite debt_section_run in Hr.
  destruct (Debt.year_widget debt_csv) as [widget|e].
  - unfold App.bind at 1 in Hr. rewrite hepatitis_section_run in Hr.
    destruct (Hepatitis.text_typed hep_csv).
    + cbn zeta in Hr. cbn [App.page App.clock] in Hr.
      match type of Hr with context [App.closing s ?w] =>
        destruct (closing_run s w) as (q & c' & Hc & Hq); rewrite Hc in Hr end.
      subst r. exists q, c'. split; [|exact Hq].
      cbn [App.page]. rewrite <- !app_assoc. reflexivity.
    + subst r. reflexivity.
  - subst r. reflexivity.
Qed.

(** The charts of a whole run. *)
Lemma run_charts (debt_csv : list Debt.DebtRecord)
  (hep_csv : list Hepatitis.HepatitisRecord) (s : App.Session) (now : Z) :
  match Debt.year_widget debt_csv with
  | Ok widget =>
      if Hepatitis.text_typed hep_csv
      then
        snd (App.run debt_csv hep_csv s now) = Ok tt /\
        App.charts (fst (App.run debt_csv hep_csv s now)) =
        [App.LineChart
           (Debt.filter_range (App.slider_value s widget)
              (Debt.df_debt debt_csv));
         App.BarChart
           (App.hepatitis_bars hep_csv
              (App.multiselect_value s
                 (Hepatitis.years_available
                    (Hepatitis.cases_over_time
                       (Hepatitis.df_hepatitis hep_csv))))
              (App.radio_value s))]
      else
        snd (App.run debt_csv hep_csv s now) = Raise AttributeError /\
        App.charts (fst (App.run debt_csv hep_csv s now)) =
        [App.LineChart
           (Debt.filter_range (App.slider_value s widget)
              (Debt.df_debt debt_csv))]
  | Raise e =>
      snd (App.run debt_csv hep_csv s now) = Raise e /\
      App.charts (fst (App.run debt_csv hep_csv s now)) = []
  end.
Proof.
  pose proof (run_page debt_csv hep_csv s now) as H.
  destruct (Debt.year_widget debt_csv) as [widget|e].
  - destruct (Hepatitis.text_typed hep_csv).
    + destruct H as (q & c' & -> & Hq). split; [reflexivity|].
      unfold App.charts. cbn [fst App.page].
      rewrite filter_app, Hq. reflexivity.
    + rewrite H. split; reflexivity.
  - rewrite H. split; reflexivity.
Qed.

(** Whatever happens later in the run, the slider and the line chart of a
    debt section that got past the slider stay on the page. *)
Lemma debt_drawn (debt_csv : list Debt.DebtRecord)
  (hep_csv : list Hepatitis.HepatitisRecord) (s : App.Session) (now : Z)
  (widget : Debt.SliderCall) :
  Debt.year_widget debt_csv = Ok widget ->
  In (App.Slider widget) (App.page (fst (App.run debt_csv hep_csv s now))) /\
  In (App.LineChart
        (Debt.filter_range (App.slider_value s widget) (Debt.df_debt debt_csv)))
     (App.page (fst (App.run debt_csv hep_csv s now))).
Proof.
  intros Hw. pose proof (run_page debt_csv hep_csv s now) as H.
  rewrite Hw in H. destruct (Hepatitis.text_typed hep_csv).
  - destruct H as (q & c' & -> & _). cbn [fst App.page].
    split; apply in_or_app; left; simpl; tauto.
  - rewrite H. cbn [fst App.page]. split; simpl; tauto.
Qed.

(** ** Debt claims *)

Lemma in_range_true (lo hi : Z) (r : Debt.DebtRecord) :
  Debt.in_range (lo, hi) r = true <-> lo <= Debt.refPeriod r <= hi.
Proof.
  unfold Debt.in_range. simpl. rewrite andb_true_iff, !Z.leb_le. tauto.
Qed.

Lemma slider_request_ok (csv : list Debt.DebtRecord) (mn mx : Z) :
  Debt.min_year (Debt.df_debt csv) = Ok mn ->
  Debt.max_year (Debt.df_debt csv) = Ok mx ->
  Debt.slider_request csv = Ok (Debt.year_slider mn mx).
Proof. unfold Debt.slider_request. now intros -> ->. Qed.

(** The slider accepts bounds that span a range of safe integers; the
    control it offers contains the requested bounds and holds the default
    pair (1970, max) in ascending order. *)
Lemma slider_widget_ok (mn mx : Z) :
  mn < mx ->
  - Debt.MAX_SAFE_INTEGER <= mn -> mx <= Debt.MAX_SAFE_INTEGER ->
  Debt.slider_widget (Debt.year_slider mn mx)
  = Ok (Debt.mkSlider (Z.min 1970 mn) (Z.max 1970 mx)
          (Z.min 1970 mx, Z.max 1970 mx)).
Proof.
  intros Hlt Hmn Hmx. unfold Debt.slider_widget, Debt.year_slider.
  cbn [Debt.min_value Debt.max_value Debt.value].
  assert (E : (mx <=? mn) = false) by (apply Z.leb_gt; lia). rewrite E.
  unfold Debt.MAX_SAFE_INTEGER in *.
  destruct (mx <? 1970) eqn:C; cbv beta iota zeta.
  - apply Z.ltb_lt in C.
    replace (Z.min mx mn) with mn by lia.
    replace (Z.max 1970 mx) with 1970 by lia.
    replace (Z.min 1970 mn) with mn by lia.
    replace (Z.min 1970 mx) with mx by lia.
    assert (B : (- (2 ^ 53 - 1) <=? mn) && (1970 <=? 2 ^ 53 - 1) = true).
    { apply andb_true_iff. split; apply Z.leb_le; lia. }
    now rewrite B.
  - apply Z.ltb_ge in C.
    replace (Z.max mx mx) with mx by lia.
    replace (Z.max 1970 mx) with mx by lia.
    replace (Z.min 1970 mx) with 1970 by lia.
    assert (B : (- (2 ^ 53 - 1) <=? Z.min 1970 mn) && (mx <=? 2 ^ 53 - 1) = true).
    { apply andb_true_iff. split; apply Z.leb_le; lia. }
    now rewrite B.
Qed.

Lemma year_widget_ok (csv : list Debt.DebtRecord) (mn mx : Z) :
  Debt.min_year (Debt.df_debt csv) = Ok mn ->
  Debt.max_year (Debt.df_debt csv) = Ok mx ->
  mn < mx ->
  - Debt.MAX_SAFE_INTEGER <= mn -> mx <= Debt.MAX_SAFE_INTEGER ->
  Debt.year_widget csv
  = Ok (Debt.mkSlider (Z.min 1970 mn) (Z.max 1970 mx)
          (Z.min 1970 mx, Z.max 1970 mx)).
Proof.
  intros Hmn Hmx Hlt Hlo Hhi. unfold Debt.year_widget.
  rewrite (slider_request_ok csv mn mx Hmn Hmx). cbn [bind_result].
  now apply slider_widget_ok.
Qed.

Lemma min_year_spec (df : list Debt.DebtRecord) (mn : Z) :
  Debt.min_year df = Ok mn ->
  In mn (map Debt.refPeriod df) /\ Forall (fun r => mn <= Debt.refPeriod r) df.
Proof.
  intros H.
  assert (Hne : df <> []) by (intros ->; discriminate).
  destruct (min_year_ok df Hne) as (lo & E & I & L).
  rewrite H in E. injection E as ->. now split.
Qed.

Lemma max_year_spec (df : list Debt.DebtRecord) (mx : Z) :
  Debt.max_year df = Ok mx ->
  In mx (map Debt.refPeriod df) /\ Forall (fun r => Debt.refPeriod r <= mx) df.
Proof.
  intros H.
  assert (Hne : df <> []) by (intros ->; discriminate).
  destruct (max_year_ok df Hne) as (hi & E & I & L).
  rewrite H in E. injection E as ->. now split.
Qed.

(** C1, amended.  For a table whose indicator rows span at least two years
    (min_year < max_year, both safe integers, so that the slider is built)
    and a pair lo, hi picked on the slider with
    min_year <= lo <= hi <= max_year, the filtered debt view is computed, it
    holds exactly the rows of the indicator with lo <= refPeriod <= hi (same
    rows, same multiplicities), in ascending refPeriod order, and it is the
    data of the line chart the run draws. *)
Theorem debt_view_exact (csv : list Debt.DebtRecord) (mn mx lo hi : Z) :
  Debt.min_year (Debt.df_debt csv) = Ok mn ->
  Debt.max_year (Debt.df_debt csv) = Ok mx ->
  mn < mx ->
  - Debt.MAX_SAFE_INTEGER <= mn -> mx <= Debt.MAX_SAFE_INTEGER ->
  mn <= lo -> lo <= hi -> hi <= mx ->
  exists view,
    Debt.df_debt_filtered csv (fun _ => (lo, hi)) = Ok view /\
    Permutation view
      (filter (fun r => Debt.has_indicator r && Debt.in_range (lo, hi) r) csv) /\
    (forall r, In r view <->
               In r csv /\ is_indicator_row r /\ lo <= Debt.refPeriod r <= hi) /\
    StronglySorted period_le view /\
    (forall hep ms rd b now,
        In (App.LineChart view)
           (App.page (fst (App.run csv hep
                             (App.mkSession (Some (lo, hi)) ms rd b) now)))).
Proof.
  intros Hmn Hmx Hlt Hsafe1 Hsafe2 _ _ _.
  exists (Debt.filter_range (lo, hi) (Debt.df_debt csv)).
  pose proof (year_widget_ok csv mn mx Hmn Hmx Hlt Hsafe1 Hsafe2) as Hw.
  split; [|split; [|split; [|split]]].
  - unfold Debt.df_debt_filtered. now rewrite Hw.
  - unfold Debt.filter_range, Debt.df_debt, Debt.select_indicator.
    rewrite <- filter_filter. apply filter_perm, sort_values_perm.
  - intros r. unfold Debt.filter_range.
    rewrite filter_In, df_debt_in, in_range_true. tauto.
  - apply filter_sorted, sort_values_sorted.
  - intros hep ms rd b now.
    apply (debt_drawn csv hep (App.mkSession (Some (lo, hi)) ms rd b) now _ Hw).
Qed.

Lemma debt_view_exact_witness :
  exists view,
    Debt.df_debt_filtered sample_debt (fun _ => (1970, 1980)) = Ok view /\
    Permutation view
      (filter (fun r => Debt.has_indicator r && Debt.in_range (1970, 1980) r)
         sample_debt) /\
    (forall r, In r view <->
               In r sample_debt /\ is_indicator_row r /\
               1970 <= Debt.refPeriod r <= 1980) /\
    StronglySorted period_le view /\
    (forall hep ms rd b now,
        In (App.LineChart view)
           (App.page (fst (App.run sample_debt hep
                             (App.mkSession (Some (1970, 1980)) ms rd b) now)))).
Proof.
  apply (debt_view_exact sample_debt 1970 2022 1970 1980);
    [reflexivity | reflexivity | lia
    | unfold Debt.MAX_SAFE_INTEGER; lia | unfold Debt.MAX_SAFE_INTEGER; lia
    | lia | lia | lia].
Defined.

(** C1 as stated fails on a table with a single year of the indicator: the
    pair (1970, 1970) lies within [min_year, max_year], but the slider
    refuses bounds without a range, so no filtered view is computed and the
    run ends with that error without a chart. *)
Lemma debt_view_one_year :
  Debt.min_year (Debt.df_debt one_year_debt) = Ok 1970 /\
  Debt.max_year (Debt.df_debt one_year_debt) = Ok 1970 /\
  1970 <= 1970 <= 1970 /\
  Debt.df_debt_filtered one_year_debt (fun _ => (1970, 1970))
  = Raise StreamlitAPIException /\
  ~ (exists view,
        Debt.df_debt_filtered one_year_debt (fun _ => (1970, 1970)) = Ok view) /\
  App.run one_year_debt sample_hepatitis
    (App.mkSession (Some (1970, 1970)) None None false) 0
  = (App.mkWorld [App.Static; App.Static; App.Static; App.Static] 0,
     Raise StreamlitAPIException).
Proof.
  repeat split; try reflexivity; try lia.
  intros [view H]. discriminate H.
Qed.

(** The view of the sample table for the range (1970, 1980): two points. *)
Example debt_view_sample :
  Debt.df_debt_filtered sample_debt (fun _ => (1970, 1980))
  = Ok [Debt.mkDebt 1970 "DT.TDS.DPPG.CD" 5; Debt.mkDebt 1980 "DT.TDS.DPPG.CD" 50].
Proof. reflexivity. Qed.

Lemma Forall_of_charts (P : App.Element -> Prop) (l : list App.Element) :
  (forall e, App.is_chart e = false -> P e) ->
  Forall P (filter App.is_chart l) -> Forall P l.
Proof.
  intros HP H. rewrite Forall_forall in H |- *. intros e He.
  destruct (App.is_chart e) eqn:E; [|now apply HP].
  apply H, filter_In. now split.
Qed.

Lemma sort_values_keeps (P : Debt.DebtRecord -> Prop) (df : list Debt.DebtRecord) :
  Forall P df -> Forall P (Debt.sort_values df).
Proof.
  rewrite !Forall_forall. intros H r Hr. apply H.
  eapply Permutation_in; [apply sort_values_perm | exact Hr].
Qed.

Lemma filter_range_keeps (P : Debt.DebtRecord -> Prop) (yr : Z * Z)
  (df : list Debt.DebtRecord) :
  Forall P df -> Forall P (Debt.filter_range yr df).
Proof.
  rewrite !Forall_forall. intros H r Hr. apply H.
  unfold Debt.filter_range in Hr. now apply filter_In in Hr.
Qed.

Lemma select_indicator_all (csv : list Debt.DebtRecord) :
  Forall is_indicator_row (Debt.select_indicator csv).
Proof.
  apply Forall_forall. intros r Hr.
  apply filter_In in Hr. now apply has_indicator_true.
Qed.

(** C5.  After the initial filter every row carries the indicator code, and
    it stays so after sorting, after the year-range filter for any range
    (the min/max computation only reads the table), and in every line chart
    a run draws. *)
Theorem indicator_invariant (csv : list Debt.DebtRecord) (yr : Z * Z)
  (hep : list Hepatitis.HepatitisRecord) (s : App.Session) (now : Z) :
  Forall is_indicator_row (Debt.select_indicator csv) /\
  Forall is_indicator_row (Debt.sort_values (Debt.select_indicator csv)) /\
  Forall is_indicator_row (Debt.filter_range yr (Debt.df_debt csv)) /\
  Forall (fun e => match e with
                   | App.LineChart view => Forall is_indicator_row view
                   | _ => True
                   end)
         (App.page (fst (App.run csv hep s now))).
Proof.
  pose proof (select_indicator_all csv) as H0.
  pose proof (sort_values_keeps _ _ H0) as H1.
  split; [exact H0 | split; [exact H1 | split]].
  - now apply filter_range_keeps.
  - apply Forall_of_charts; [now intros [] | ].
    pose proof (run_charts csv hep s now) as H. unfold App.charts in H.
    destruct (Debt.year_widget csv) as [widget|e];
      [destruct (Hepatitis.text_typed hep)|]; destruct H as [_ ->].
    + repeat constructor. now apply filter_range_keeps.
    + repeat constructor. now apply filter_range_keeps.
    + constructor.
Qed.

(** C6.  When no row carries the indicator code, the min/max computation
    raises, the filtered view is never computed, and the run ends with that
    error having drawn no chart. *)
Theorem no_indicator_rows_fatal (csv : list Debt.DebtRecord) :
  Debt.select_indicator csv = [] ->
  Debt.min_year (Debt.df_debt csv) = Raise ValueError /\
  Debt.max_year (Debt.df_debt csv) = Raise ValueError /\
  (forall pick, Debt.df_debt_filtered csv pick = Raise ValueError) /\
  (forall hep s now,
      snd (App.run csv hep s now) = Raise ValueError /\
      App.charts (fst (App.run csv hep s now)) = []).
Proof.
  intros H. apply df_debt_nil in H.
  assert (Hreq : Debt.year_widget csv = Raise ValueError).
  { unfold Debt.year_widget, Debt.slider_request. now rewrite H. }
  rewrite H. repeat split; try reflexivity.
  - intros pick. unfold Debt.df_debt_filtered. now rewrite Hreq.
  - pose proof (run_charts csv hep s now) as R. rewrite Hreq in R. apply R.
  - pose proof (run_charts csv hep s now) as R. rewrite Hreq in R. apply R.
Qed.

Lemma no_indicator_rows_fatal_witness :
  Debt.min_year (Debt.df_debt other_debt) = Raise ValueError /\
  Debt.max_year (Debt.df_debt other_debt) = Raise ValueError /\
  (forall pick, Debt.df_debt_filtered other_debt pick = Raise ValueError) /\
  (forall hep s now,
      snd (App.run other_debt hep s now) = Raise ValueError /\
      App.charts (fst (App.run other_debt hep s now)) = []).
Proof. apply (no_indicator_rows_fatal other_debt). reflexivity. Defined.

(** C8, amended.  For a table whose indicator rows span at least two years,
    safe integers, and reach 1970 or later: min_year and max_year are the
    least and the greatest refPeriod among the rows of the CSV that carry
    the indicator code; the slider is requested with these bounds and the
    default (1970, max_year); the control offered has the bounds
    [min (1970, min_year), max_year], so its lower bound is 1970 when the
    data start later, and the default selection [1970, max_year] whatever
    min_year is; the run draws this control, and with the slider untouched
    the line chart is filtered to (1970, max_year). *)
Theorem year_slider_bounds (csv : list Debt.DebtRecord) (mn mx : Z) :
  Debt.min_year (Debt.df_debt csv) = Ok mn ->
  Debt.max_year (Debt.df_debt csv) = Ok mx ->
  mn < mx -> 1970 <= mx ->
  - Debt.MAX_SAFE_INTEGER <= mn -> mx <= Debt.MAX_SAFE_INTEGER ->
  (exists r, In r csv /\ is_indicator_row r /\ Debt.refPeriod r = mn) /\
  (exists r, In r csv /\ is_indicator_row r /\ Debt.refPeriod r = mx) /\
  (forall r, In r csv -> is_indicator_row r -> mn <= Debt.refPeriod r <= mx) /\
  Debt.slider_request csv = Ok (Debt.mkSlider mn mx (1970, mx)) /\
  Debt.year_widget csv = Ok (Debt.mkSlider (Z.min 1970 mn) mx (1970, mx)) /\
  (forall hep s now,
      In (App.Slider (Debt.mkSlider (Z.min 1970 mn) mx (1970, mx)))
         (App.page (fst (App.run csv hep s now)))) /\
  (forall hep ms rd b now,
      In (App.LineChart (Debt.filter_range (1970, mx) (Debt.df_debt csv)))
         (App.page (fst (App.run csv hep (App.mkSession None ms rd b) now)))).
Proof.
  intros Hmn Hmx Hlt H70 Hs1 Hs2.
  destruct (min_year_spec _ _ Hmn) as [Imn Lmn].
  destruct (max_year_spec _ _ Hmx) as [Imx Lmx].
  pose proof (year_widget_ok csv mn mx Hmn Hmx Hlt Hs1 Hs2) as Hw.
  replace (Z.max 1970 mx) with mx in Hw by lia.
  replace (Z.min 1970 mx) with 1970 in Hw by lia.
  split; [|split; [|split; [|split; [|split; [exact Hw | split]]]]].
  - apply in_map_iff in Imn. destruct Imn as (r & E & Hr).
    apply df_debt_in in Hr. exists r. tauto.
  - apply in_map_iff in Imx. destruct Imx as (r & E & Hr).
    apply df_debt_in in Hr. exists r. tauto.
  - intros r Hr Hi. rewrite Forall_forall in Lmn, Lmx.
    assert (Hd : In r (Debt.df_debt csv)) by (apply df_debt_in; tauto).
    split; auto.
  - apply (slider_request_ok csv mn mx Hmn Hmx).
  - intros hep s now. apply (debt_drawn csv hep s now _ Hw).
  - intros hep ms rd b now.
    apply (debt_drawn csv hep (App.mkSession None ms rd b) now _ Hw).
Qed.

Lemma year_slider_bounds_witness :
  (exists r, In r late_debt /\ is_indicator_row r /\ Debt.refPeriod r = 1990) /\
  (exists r, In r late_debt /\ is_indicator_row r /\ Debt.refPeriod r = 1995) /\
  (forall r, In r late_debt -> is_indicator_row r ->
             1990 <= Debt.refPeriod r <= 1995) /\
  Debt.slider_request late_debt = Ok (Debt.mkSlider 1990 1995 (1970, 1995)) /\
  Debt.year_widget late_debt
  = Ok (Debt.mkSlider (Z.min 1970 1990) 1995 (1970, 1995)) /\
  (forall hep s now,
      In (App.Slider (Debt.mkSlider (Z.min 1970 1990) 1995 (1970, 1995)))
         (App.page (fst (App.run late_debt hep s now)))) /\
  (forall hep ms rd b now,
      In (App.LineChart (Debt.filter_range (1970, 1995) (Debt.df_debt late_debt)))
         (App.page (fst (App.run late_debt hep
                           (App.mkSession None ms rd b) now)))).
Proof.
  apply (year_slider_bounds late_debt 1990 1995);
    [reflexivity | reflexivity | lia | lia
    | unfold Debt.MAX_SAFE_INTEGER; lia | unfold Debt.MAX_SAFE_INTEGER; lia].
Defined.

(** C8 as stated fails on a table that starts after 1970: min_year is 1990,
    but the control offered starts at 1970, because the slider widens its
    bounds to contain the default pair. *)
Lemma slider_bounds_widened :
  Debt.min_year (Debt.df_debt late_debt) = Ok 1990 /\
  Debt.max_year (Debt.df_debt late_debt) = Ok 1995 /\
  Debt.year_widget late_debt = Ok (Debt.mkSlider 1970 1995 (1970, 1995)) /\
  ~ (exists widget,
        Debt.year_widget late_debt = Ok widget /\
        Debt.min_value widget = 1990 /\ Debt.max_value widget = 1995).
Proof.
  repeat split; try reflexivity.
  intros (widget & H & Hmin & _).
  injection H as <-. discriminate Hmin.
Qed.

(** The request and the control of a table that starts in 1990, and of one
    that ends in 1960, where the default pair comes out in ascending order. *)
Example slider_late :
  Debt.slider_request late_debt = Ok (Debt.mkSlider 1990 1995 (1970, 1995)).
Proof. reflexivity. Qed.

Example slider_early :
  Debt.slider_request early_debt = Ok (Debt.mkSlider 1950 1960 (1970, 1960)) /\
  Debt.year_widget early_debt = Ok (Debt.mkSlider 1950 1970 (1960, 1970)).
Proof. split; reflexivity. Qed.

(** C10.  The charts of a run are fixed by the two tables and the three
    control settings: two runs that agree on them draw the same filtered debt
    rows and the same hepatitis bars, whatever the button state and the
    clock are. *)
Theorem charts_deterministic (debt_csv : list Debt.DebtRecord)
  (hep_csv : list Hepatitis.HepatitisRecord)
  (sl : option (Z * Z)) (ms : option (list string))
  (rd : option Hepatitis.View) (b1 b2 : bool) (now1 now2 : Z) :
  App.charts (fst (App.run debt_csv hep_csv (App.mkSession sl ms rd b1) now1)) =
  App.charts (fst (App.run debt_csv hep_csv (App.mkSession sl ms rd b2) now2)) /\
  snd (App.run debt_csv hep_csv (App.mkSession sl ms rd b1) now1) =
  snd (App.run debt_csv hep_csv (App.mkSession sl ms rd b2) now2).
Proof.
  pose proof (run_charts debt_csv hep_csv (App.mkSession sl ms rd b1) now1) as H1.
  pose proof (run_charts debt_csv hep_csv (App.mkSession sl ms rd b2) now2) as H2.
  destruct (Debt.year_widget debt_csv) as [widget|e];
    [destruct (Hepatitis.text_typed hep_csv)|];
    destruct H1 as [-> ->], H2 as [-> ->]; split; reflexivity.
Qed.

(** ** 64-bit sums *)

Lemma wrap64_add_l (a b : Z) : wrap64 (wrap64 a + b) = wrap64 (a + b).
Proof.
  unfold wrap64.
  replace ((a + 2 ^ 63) mod 2 ^ 64 - 2 ^ 63 + b + 2 ^ 63)
    with ((a + 2 ^ 63) mod 2 ^ 64 + b) by lia.
  rewrite Z.add_mod_idemp_l by lia.
  do 2 f_equal. lia.
Qed.

Lemma wrap64_add_r (a b : Z) : wrap64 (a + wrap64 b) = wrap64 (a + b).
Proof. rewrite Z.add_comm, wrap64_add_l. f_equal. lia. Qed.

Lemma wrap64_idem (a : Z) : wrap64 (wrap64 a) = wrap64 a.
Proof.
  replace (wrap64 a) with (wrap64 a + 0) at 1 by lia.
  rewrite wrap64_add_l. f_equal. lia.
Qed.

Lemma wrap64_small (a : Z) : - 2 ^ 63 <= a < 2 ^ 63 -> wrap64 a = a.
Proof.
  intros H. unfold wrap64. rewrite Z.mod_small; lia.
Qed.

Lemma wrap64_congr (a b c : Z) :
  wrap64 a = wrap64 b -> wrap64 (c + a) = wrap64 (c + b).
Proof.
  intros H. rewrite <- (wrap64_add_r c a), <- (wrap64_add_r c b). now rewrite H.
Qed.

Lemma fold_add64 (l : list Z) (b : Z) :
  fold_left add64 l (wrap64 b) = wrap64 (b + sumZ l).
Proof.
  revert b. induction l as [|x t IH]; intros b; simpl.
  - f_equal. lia.
  - unfold add64 at 2. rewrite wrap64_add_l, IH. f_equal. lia.
Qed.

(** The column sum is the plain sum, wrapped once. *)
Lemma sum64_sumZ (l : list Z) : sum64 l = wrap64 (sumZ l).
Proof.
  unfold sum64. change 0 with (wrap64 0) at 1. now rewrite fold_add64.
Qed.

Lemma sum64_snoc (l : list Z) (v : Z) : sum64 (l ++ [v]) = add64 (sum64 l) v.
Proof. unfold sum64. now rewrite fold_left_app. Qed.

Lemma sumZ_app (l1 l2 : list Z) : sumZ (l1 ++ l2) = sumZ l1 + sumZ l2.
Proof. induction l1 as [|x t IH]; simpl; lia. Qed.

(** ** Grouped sums over an ordered key type *)

Section GroupBy.

Variable K : Type.
Variable cmp : K -> K -> comparison.
Hypothesis cmp_eq : forall a b, cmp a b = Eq -> a = b.
Hypothesis cmp_refl : forall a, cmp a a = Eq.
Hypothesis cmp_gt : forall a b, cmp a b = Gt -> cmp b a = Lt.
Hypothesis cmp_trans :
  forall a b c, cmp a b = Lt -> cmp b c = Lt -> cmp a c = Lt.

Lemma cmp_lt_irrefl (a b : K) : cmp a b = Lt -> a <> b.
Proof. intros H ->. rewrite cmp_refl in H. discriminate. Qed.

Lemma add_group_keys (k : K) (v : Z) (acc : list (K * Z)) (x : K) :
  In x (map fst (add_group cmp k v acc)) <-> x = k \/ In x (map fst acc).
Proof.
  induction acc as [|[k' s] t IH]; simpl.
  - intuition.
  - destruct (cmp k k') eqn:E; simpl.
    + apply cmp_eq in E. subst k'. intuition.
    + intuition.
    + rewrite IH. intuition.
Qed.

Lemma add_group_ascending (k : K) (v : Z) (acc : list (K * Z)) :
  keys_ascending cmp acc -> keys_ascending cmp (add_group cmp k v acc).
Proof.
  unfold keys_ascending.
  induction acc as [|[k' s] t IH]; simpl; intros H.
  - repeat constructor.
  - inversion H as [|? ? Hs Hall]; subst.
    destruct (cmp k k') eqn:E; simpl.
    + now constructor.
    + constructor; [exact H|]. constructor; [exact E|].
      rewrite Forall_forall in Hall |- *. intros y Hy.
      eapply cmp_trans; [exact E | now apply Hall].
    + constructor; [now apply IH|].
      rewrite Forall_forall in Hall |- *. intros y Hy.
      apply add_group_keys in Hy. destruct Hy as [->|Hy].
      * now apply cmp_gt.
      * now apply Hall.
Qed.

Lemma lookup_above (k : K) (l : list (K * Z)) :
  Forall (fun x => cmp k x = Lt) (map fst l) -> lookup cmp k l = None.
Proof.
  induction l as [|[k' s] t IH]; simpl; intros H; [reflexivity|].
  inversion H as [|? ? H1 H2]; subst. rewrite H1. now apply IH.
Qed.

Lemma lookup_add_group (k k' : K) (v : Z) (acc : list (K * Z)) :
  keys_ascending cmp acc ->
  lookup cmp k (add_group cmp k' v acc) =
  match cmp k' k with
  | Eq => Some (add64 (stored (lookup cmp k acc)) v)
  | _ => lookup cmp k acc
  end.
Proof.
  unfold keys_ascending.
  assert (flip : forall a b (X Y : option Z),
             cmp a b <> Eq ->
             match cmp b a with Eq => X | _ => Y end = Y).
  { intros a b X Y Hab. destruct (cmp b a) eqn:E; try reflexivity.
    apply cmp_eq in E. subst. now rewrite cmp_refl in Hab. }
  induction acc as [|[x s] t IH]; simpl; intros H.
  - destruct (cmp k' k) eqn:E.
    + apply cmp_eq in E. subst. now rewrite cmp_refl.
    + apply flip. congruence.
    + apply flip. congruence.
  - inversion H as [|? ? Hs Hall]; subst.
    destruct (cmp k' x) eqn:E1; simpl.
    + (* same group *)
      apply cmp_eq in E1. subst x.
      destruct (cmp k' k) eqn:E.
      * apply cmp_eq in E. subst. now rewrite cmp_refl.
      * rewrite !flip by congruence. reflexivity.
      * rewrite !flip by congruence. reflexivity.
    + (* new group in front *)
      destruct (cmp k' k) eqn:E.
      * apply cmp_eq in E. subst k'. rewrite cmp_refl, E1.
        rewrite lookup_above; [reflexivity|].
        rewrite Forall_forall in Hall |- *. intros y Hy.
        eapply cmp_trans; [exact E1 | now apply Hall].
      * rewrite !flip by congruence. reflexivity.
      * rewrite !flip by congruence. reflexivity.
    + (* further down *)
      rewrite (IH Hs).
      destruct (cmp k' k) eqn:E; try reflexivity.
      apply cmp_eq in E. subst k'.
      rewrite E1. reflexivity.
Qed.

Lemma groupby_sum_snoc (rows : list (K * Z)) (kv : K * Z) :
  groupby_sum cmp (rows ++ [kv]) =
  add_group cmp (fst kv) (snd kv) (groupby_sum cmp rows).
Proof. unfold groupby_sum. now rewrite fold_left_app. Qed.

Lemma groupby_ascending (rows : list (K * Z)) :
  keys_ascending cmp (groupby_sum cmp rows).
Proof.
  induction rows as [|kv t IH] using rev_ind.
  - constructor.
  - rewrite groupby_sum_snoc. now apply add_group_ascending.
Qed.

Lemma groupby_keys (rows : list (K * Z)) (x : K) :
  In x (map fst (groupby_sum cmp rows)) <-> In x (map fst rows).
Proof.
  induction rows as [|kv t IH] using rev_ind.
  - reflexivity.
  - rewrite groupby_sum_snoc, add_group_keys, IH, map_app, in_app_iff.
    simpl. intuition.
Qed.

Lemma no_key_total (k : K) (rows : list (K * Z)) :
  has_key cmp k rows = false -> group_total cmp k rows = 0.
Proof.
  unfold has_key, group_total. intros H.
  replace (filter _ rows) with (@nil (K * Z)); [reflexivity|].
  symmetry. induction rows as [|kv t IH]; simpl in *; [reflexivity|].
  apply orb_false_iff in H. destruct H as [H1 H2].
  rewrite H1. now apply IH.
Qed.

Lemma has_key_in (k : K) (rows : list (K * Z)) :
  has_key cmp k rows = true <-> In k (map fst rows).
Proof.
  unfold has_key. rewrite existsb_exists, in_map_iff. split.
  - intros (kv & Hin & E). exists kv. split; [|exact Hin].
    destruct (cmp (fst kv) k) eqn:C; try discriminate. now apply cmp_eq.
  - intros (kv & <- & Hin). exists kv. split; [exact Hin|].
    now rewrite cmp_refl.
Qed.

(** Each group holds the wrapped sum of the rows of its key. *)
Lemma lookup_groupby (k : K) (rows : list (K * Z)) :
  lookup cmp k (groupby_sum cmp rows) =
  if has_key cmp k rows then Some (group_total cmp k rows) else None.
Proof.
  induction rows as [|[k' v] t IH] using rev_ind; [reflexivity|].
  rewrite groupby_sum_snoc, lookup_add_group by apply groupby_ascending.
  assert (Hst : stored (lookup cmp k (groupby_sum cmp t)) = group_total cmp k t).
  { rewrite IH. destruct (has_key cmp k t) eqn:E; simpl; [reflexivity|].
    symmetry. now apply no_key_total. }
  unfold has_key, group_total in *.
  rewrite existsb_app, filter_app, map_app. simpl.
  destruct (cmp k' k) eqn:E; simpl.
  - rewrite orb_true_r, sum64_snoc, Hst. reflexivity.
  - rewrite orb_false_r, app_nil_r. exact IH.
  - rewrite orb_false_r, app_nil_r. exact IH.
Qed.

Lemma lookup_in (k : K) (t : Z) (l : list (K * Z)) :
  keys_ascending cmp l -> (In (k, t) l <-> lookup cmp k l = Some t).
Proof.
  unfold keys_ascending.
  induction l as [|[x s] r IH]; simpl; intros H.
  - split; [tauto | discriminate].
  - inversion H as [|? ? Hs Hall]; subst.
    destruct (cmp k x) eqn:E.
    + apply cmp_eq in E. subst x. split.
      * intros [[= ->]|Hin]; [reflexivity|].
        exfalso. rewrite Forall_forall in Hall.
        apply (cmp_lt_irrefl k k); [|reflexivity].
        apply Hall. apply in_map_iff. now exists (k, t).
      * intros [= ->]. now left.
    + rewrite <- (IH Hs). split; [|tauto].
      intros [[= -> ->]|Hin]; [|exact Hin].
      rewrite cmp_refl in E. discriminate.
    + rewrite <- (IH Hs). split; [|tauto].
      intros [[= -> ->]|Hin]; [|exact Hin].
      rewrite cmp_refl in E. discriminate.
Qed.

(** Two accumulator lists in ascending key order that store the same totals
    are the same list. *)
Lemma ascending_ext (l1 : list (K * Z)) :
  forall l2,
    keys_ascending cmp l1 -> keys_ascending cmp l2 ->
    (forall k, lookup cmp k l1 = lookup cmp k l2) -> l1 = l2.
Proof.
  unfold keys_ascending.
  induction l1 as [|[k1 s1] t1 IH]; intros [|[k2 s2] t2] H1 H2 H.
  - reflexivity.
  - specialize (H k2). simpl in H. rewrite cmp_refl in H. discriminate.
  - specialize (H k1). simpl in H. rewrite cmp_refl in H. discriminate.
  - simpl in H1, H2.
    inversion H1 as [|? ? Hs1 Ha1]; subst.
    inversion H2 as [|? ? Hs2 Ha2]; subst.
    destruct (cmp k1 k2) eqn:E.
    + apply cmp_eq in E. subst k2.
      pose proof (H k1) as Hk. simpl in Hk. rewrite cmp_refl in Hk.
      injection Hk as ->. f_equal.
      apply IH; [exact Hs1 | exact Hs2 |].
      intros k. specialize (H k). simpl in H.
      destruct (cmp k k1) eqn:Ek; try exact H.
      apply cmp_eq in Ek. subst k.
      now rewrite !lookup_above.
    + exfalso. specialize (H k1). simpl in H. rewrite cmp_refl, E in H.
      rewrite lookup_above in H; [discriminate|].
      rewrite Forall_forall in Ha2 |- *. intros y Hy.
      eapply cmp_trans; [exact E | now apply Ha2].
    + exfalso. apply cmp_gt in E.
      specialize (H k2). simpl in H. rewrite cmp_refl, E in H.
      rewrite lookup_above in H; [discriminate|].
      rewrite Forall_forall in Ha1 |- *. intros y Hy.
      eapply cmp_trans; [exact E | now apply Ha1].
Qed.

(** Tables with the same keys and the same per-key totals group alike. *)
Lemma groupby_ext (rows1 rows2 : list (K * Z)) :
  (forall k, has_key cmp k rows1 = has_key cmp k rows2) ->
  (forall k, group_total cmp k rows1 = group_total cmp k rows2) ->
  groupby_sum cmp rows1 = groupby_sum cmp rows2.
Proof.
  intros Hk Ht. apply ascending_ext; try apply groupby_ascending.
  intros k. now rewrite !lookup_groupby, Hk, Ht.
Qed.

(** Adding a row moves the sum over any family of groups by the row's
    count exactly when the row's key is in the family. *)
Lemma add_group_part (p : K -> bool) (k : K) (v : Z) (acc : list (K * Z)) :
  wrap64 (sumZ (map snd (filter (fun g => p (fst g)) (add_group cmp k v acc))))
  = wrap64 (sumZ (map snd (filter (fun g => p (fst g)) acc))
            + (if p k then v else 0)).
Proof.
  induction acc as [|[k' s] t IH]; simpl.
  - destruct (p k); simpl; [|reflexivity].
    unfold add64. rewrite Z.add_0_r, wrap64_idem. reflexivity.
  - destruct (cmp k k') eqn:E; simpl.
    + apply cmp_eq in E. subst k'.
      destruct (p k); simpl; [|now rewrite Z.add_0_r].
      unfold add64. rewrite wrap64_add_l. f_equal. lia.
    + destruct (p k); simpl.
      * unfold add64. rewrite wrap64_add_l. simpl.
        destruct (p k'); simpl; f_equal; lia.
      * now rewrite Z.add_0_r.
    + destruct (p k'); simpl; [|exact IH].
      rewrite <- Z.add_assoc. now apply wrap64_congr.
Qed.

(** Grouping keeps the sum over any family of keys (up to wrap-around). *)
Lemma groupby_part (p : K -> bool) (rows : list (K * Z)) :
  wrap64 (sumZ (map snd (filter (fun g => p (fst g)) (groupby_sum cmp rows))))
  = wrap64 (sumZ (map snd (filter (fun g => p (fst g)) rows))).
Proof.
  induction rows as [|[k v] t IH] using rev_ind; [reflexivity|].
  rewrite groupby_sum_snoc, add_group_part. simpl.
  rewrite filter_app, map_app, sumZ_app. simpl.
  destruct (p k); simpl.
  - rewrite Z.add_0_r, !(Z.add_comm _ v). now apply wrap64_congr.
  - rewrite !Z.add_0_r. exact IH.
Qed.

End GroupBy.

(** ** The key orders *)

Lemma str_cmp_eq (a b : string) : String_as_OT.compare a b = Eq -> a = b.
Proof.
  intros H. destruct (String_as_OT.compare_spec a b); congruence.
Qed.

Lemma str_cmp_refl (a : string) : String_as_OT.compare a a = Eq.
Proof.
  destruct (String_as_OT.compare_spec a a) as [_|H|H]; [reflexivity| |];
    exfalso; revert H; apply String_as_OT.lt_strorder.
Qed.

Lemma str_cmp_gt (a b : string) :
  String_as_OT.compare a b = Gt -> String_as_OT.compare b a = Lt.
Proof.
  intros H. destruct (String_as_OT.compare_spec a b); try discriminate.
  assumption.
Qed.

Lemma str_cmp_trans (a b c : string) :
  String_as_OT.compare a b = Lt -> String_as_OT.compare b c = Lt ->
  String_as_OT.compare a c = Lt.
Proof.
  intros H1 H2.
  destruct String_as_OT.lt_strorder as [_ T]. exact (T a b c H1 H2).
Qed.

Lemma str_cmp_eqb (a b : string) :
  match String_as_OT.compare a b with Eq => true | _ => false end
  = String.eqb a b.
Proof.
  destruct (String.eqb a b) eqn:E.
  - apply String.eqb_eq in E. subst. now rewrite str_cmp_refl.
  - destruct (String_as_OT.compare a b) eqn:C; try reflexivity.
    apply str_cmp_eq in C. subst. now rewrite String.eqb_refl in E.
Qed.

Lemma ts_cmp_eq (a b : Hepatitis.Timestamp) :
  Hepatitis.ts_compare a b = Eq -> a = b.
Proof.
  destruct a as [ya ma], b as [yb mb]. unfold Hepatitis.ts_compare. simpl.
  destruct (Z.compare_spec ya yb); try discriminate.
  destruct (Z.compare_spec ma mb); try discriminate. congruence.
Qed.

Lemma ts_cmp_refl (a : Hepatitis.Timestamp) : Hepatitis.ts_compare a a = Eq.
Proof. unfold Hepatitis.ts_compare. now rewrite !Z.compare_refl. Qed.

Lemma ts_cmp_gt (a b : Hepatitis.Timestamp) :
  Hepatitis.ts_compare a b = Gt -> Hepatitis.ts_compare b a = Lt.
Proof.
  destruct a as [ya ma], b as [yb mb]. unfold Hepatitis.ts_compare. simpl.
  destruct (Z.compare_spec ya yb), (Z.compare_spec yb ya); try lia;
    try discriminate; try reflexivity.
  destruct (Z.compare_spec ma mb), (Z.compare_spec mb ma); try lia;
    try discriminate; reflexivity.
Qed.

Lemma ts_cmp_trans (a b c : Hepatitis.Timestamp) :
  Hepatitis.ts_compare a b = Lt -> Hepatitis.ts_compare b c = Lt ->
  Hepatitis.ts_compare a c = Lt.
Proof.
  destruct a as [ya ma], b as [yb mb], c as [yc mc].
  unfold Hepatitis.ts_compare. simpl.
  destruct (Z.compare_spec ya yb), (Z.compare_spec yb yc),
    (Z.compare_spec ya yc); try lia; try discriminate; try reflexivity.
  rewrite !Z.compare_lt_iff. lia.
Qed.

Lemma key_cmp_eq (a b : Hepatitis.Timestamp * string) :
  Hepatitis.key_compare a b = Eq -> a = b.
Proof.
  destruct a as [da ya], b as [db yb]. unfold Hepatitis.key_compare. simpl.
  destruct (Hepatitis.ts_compare da db) eqn:E; try discriminate.
  intros H. apply ts_cmp_eq in E. apply str_cmp_eq in H. congruence.
Qed.

Lemma key_cmp_refl (a : Hepatitis.Timestamp * string) :
  Hepatitis.key_compare a a = Eq.
Proof.
  unfold Hepatitis.key_compare. now rewrite ts_cmp_refl, str_cmp_refl.
Qed.

Lemma key_cmp_gt (a b : Hepatitis.Timestamp * string) :
  Hepatitis.key_compare a b = Gt -> Hepatitis.key_compare b a = Lt.
Proof.
  destruct a as [da ya], b as [db yb]. unfold Hepatitis.key_compare. simpl.
  destruct (Hepatitis.ts_compare da db) eqn:E; try discriminate.
  - apply ts_cmp_eq in E. subst. rewrite ts_cmp_refl. apply str_cmp_gt.
  - apply ts_cmp_gt in E. now rewrite E.
Qed.

Lemma key_cmp_trans (a b c : Hepatitis.Timestamp * string) :
  Hepatitis.key_compare a b = Lt -> Hepatitis.key_compare b c = Lt ->
  Hepatitis.key_compare a c = Lt.
Proof.
  destruct a as [da ya], b as [db yb], c as [dc yc].
  unfold Hepatitis.key_compare. simpl.
  destruct (Hepatitis.ts_compare da db) eqn:E1; try discriminate;
    destruct (Hepatitis.ts_compare db dc) eqn:E2; try discriminate.
  - apply ts_cmp_eq in E1, E2. subst. rewrite ts_cmp_refl. apply str_cmp_trans.
  - apply ts_cmp_eq in E1. subst. now rewrite E2.
  - apply ts_cmp_eq in E2. subst. now rewrite E1.
  - now rewrite (ts_cmp_trans _ _ _ E1 E2).
Qed.

(** ** Token extraction *)

Lemma match_token_shape (s t : string) :
  Hepatitis.match_token s = Some t ->
  token_shape t /\ exists post, s = (t ++ post)%string.
Proof.
  unfold Hepatitis.match_token.
  destruct s as [|a [|b [|c [|d [|e [|f [|g post]]]]]]]; try discriminate.
  destruct (Hepatitis.is_digit a) eqn:Da; try discriminate.
  destruct (Hepatitis.is_digit b) eqn:Db; try discriminate.
  destruct (Ascii.eqb c "-") eqn:Dc; try discriminate.
  destruct (Hepatitis.is_digit d) eqn:Dd; try discriminate.
  destruct (Hepatitis.is_digit e) eqn:De; try discriminate.
  destruct (Hepatitis.is_digit f) eqn:Df; try discriminate.
  destruct (Hepatitis.is_digit g) eqn:Dg; try discriminate.
  simpl. intros [= <-]. apply Ascii.eqb_eq in Dc. subst c. split.
  - exists a, b, d, e, f, g. auto 10.
  - exists post. reflexivity.
Qed.

Lemma match_token_prefix (t post : string) :
  token_shape t -> Hepatitis.match_token (t ++ post) = Some t.
Proof.
  intros (a & b & d & e & f & g & -> & Da & Db & Dd & De & Df & Dg).
  simpl. now rewrite Da, Db, Dd, De, Df, Dg.
Qed.

Lemma occurs_at_0 (t s : string) :
  occurs_at t s 0 <-> exists post, s = (t ++ post)%string.
Proof.
  split.
  - intros (pre & post & -> & Hl). destruct pre; [|discriminate].
    now exists post.
  - intros (post & ->). now exists EmptyString, post.
Qed.

Lemma occurs_at_S (t : string) (c : ascii) (s : string) (n : nat) :
  occurs_at t (String c s) (S n) <-> occurs_at t s n.
Proof.
  split.
  - intros (pre & post & E & Hl). destruct pre as [|c' pre]; [discriminate|].
    simpl in E, Hl. injection E as _ E. injection Hl as Hl.
    now exists pre, post.
  - intros (pre & post & -> & Hl). exists (String c pre), post.
    simpl. now rewrite Hl.
Qed.

Lemma token_not_in_empty (t : string) (n : nat) :
  token_shape t -> ~ occurs_at t EmptyString n.
Proof.
  intros (a & b & d & e & f & g & -> & _) (pre & post & E & _).
  destruct pre; discriminate.
Qed.

Lemma str_extract_cons (c : ascii) (s : string) :
  Hepatitis.str_extract (String c s) =
  match Hepatitis.match_token (String c s) with
  | Some t => Some t
  | None => Hepatitis.str_extract s
  end.
Proof. reflexivity. Qed.

(** Extraction finds nothing exactly when no substring has the shape. *)
Lemma str_extract_none (s : string) :
  Hepatitis.str_extract s = None <->
  forall t n, token_shape t -> ~ occurs_at t s n.
Proof.
  induction s as [|c s IH]; [simpl | rewrite str_extract_cons].
  - split; [|reflexivity]. intros _ t n Ht. now apply token_not_in_empty.
  - destruct (Hepatitis.match_token (String c s)) as [t0|] eqn:M.
    + split; [discriminate|]. intros H. exfalso.
      apply match_token_shape in M. destruct M as [Ht0 Hpost].
      apply (H t0 0%nat Ht0). now apply occurs_at_0.
    + rewrite IH. split; intros H t n Ht Ho.
      * destruct n as [|n].
        -- apply occurs_at_0 in Ho. destruct Ho as [post E].
           rewrite E, (match_token_prefix t post Ht) in M. discriminate.
        -- apply occurs_at_S in Ho. exact (H t n Ht Ho).
      * apply (H t (S n) Ht). now apply occurs_at_S.
Qed.

(** Extraction returns the first substring of the shape. *)
Lemma str_extract_some (s t : string) :
  Hepatitis.str_extract s = Some t <-> first_token s t.
Proof.
  unfold first_token. revert t.
  induction s as [|c s IH]; intros t; [simpl | rewrite str_extract_cons].
  - split; [discriminate|]. intros (Ht & n & Ho & _).
    exfalso. exact (token_not_in_empty t n Ht Ho).
  - destruct (Hepatitis.match_token (String c s)) as [t0|] eqn:M.
    + pose proof (match_token_shape _ _ M) as [Ht0 Hpost]. split.
      * intros [= <-]. split; [exact Ht0|]. exists 0%nat. split.
        -- now apply occurs_at_0.
        -- intros; lia.
      * intros (Ht & n & Ho & Hmin).
        assert (n = 0)%nat as ->.
        { specialize (Hmin t0 0%nat Ht0 (proj2 (occurs_at_0 _ _) Hpost)). lia. }
        apply occurs_at_0 in Ho. destruct Ho as [post E].
        rewrite E, (match_token_prefix t post Ht) in M. congruence.
    + rewrite IH. split.
      * intros (Ht & n & Ho & Hmin). split; [exact Ht|].
        exists (S n). split; [now apply occurs_at_S|].
        intros t' [|n'] Ht' Ho'.
        -- exfalso. apply occurs_at_0 in Ho'. destruct Ho' as [post E].
           rewrite E, (match_token_prefix t' post Ht') in M. discriminate.
        -- apply occurs_at_S in Ho'. specialize (Hmin t' n' Ht' Ho'). lia.
      * intros (Ht & [|n] & Ho & Hmin).
        -- exfalso. apply occurs_at_0 in Ho. destruct Ho as [post E].
           rewrite E, (match_token_prefix t post Ht) in M. discriminate.
        -- split; [exact Ht|]. exists n. split; [now apply occurs_at_S in Ho|].
           intros t' n' Ht' Ho'.
           specialize (Hmin t' (S n') Ht' (proj2 (occurs_at_S _ _ _ _) Ho')). lia.
Qed.

(** A refPeriod without a month-year gives no dated row. *)
Lemma no_month_year_dropped (r : Hepatitis.HepatitisRecord) :
  no_month_year (Hepatitis.refPeriod r) <-> Hepatitis.date_row r = None.
Proof.
  unfold no_month_year, Hepatitis.date_row, Hepatitis.extract_cell.
  destruct (Hepatitis.refPeriod r) as [s|]; [|split; [reflexivity | exact (fun _ => I)]].
  split.
  - intros [H|(t & Hf & Hd)].
    + apply str_extract_none in H. now rewrite H.
    + apply str_extract_some in Hf. now rewrite Hf, Hd.
  - destruct (Hepatitis.str_extract s) as [t|] eqn:E.
    + intros H. right. exists t. split; [now apply str_extract_some|].
      destruct (Hepatitis.to_datetime (Some t)); [discriminate|reflexivity].
    + intros _. left. now apply str_extract_none.
Qed.

Lemma df_hepatitis_app (l1 l2 : list Hepatitis.HepatitisRecord) :
  Hepatitis.df_hepatitis (l1 ++ l2) =
  Hepatitis.df_hepatitis l1 ++ Hepatitis.df_hepatitis l2.
Proof.
  induction l1 as [|r t IH]; simpl; [reflexivity|].
  destruct (Hepatitis.date_row r); simpl; now rewrite IH.
Qed.

(** ** Hepatitis claims *)

(** C3.  A row whose refPeriod has no substring of the shape two digits,
    hyphen, four digits, or whose first such substring does not parse as a
    month-year, can be taken out of the table without changing the dated
    rows, the (Date, Year) buckets, the year-filtered view, the yearly
    re-aggregation or the bars of either view. *)
Theorem unparseable_row_ignored
  (before after : list Hepatitis.HepatitisRecord)
  (r : Hepatitis.HepatitisRecord) :
  no_month_year (Hepatitis.refPeriod r) ->
  Hepatitis.df_hepatitis (before ++ r :: after)
  = Hepatitis.df_hepatitis (before ++ after) /\
  Hepatitis.cases_over_time (Hepatitis.df_hepatitis (before ++ r :: after))
  = Hepatitis.cases_over_time (Hepatitis.df_hepatitis (before ++ after)) /\
  (forall sel,
      Hepatitis.cases_filtered
        (Hepatitis.cases_over_time
           (Hepatitis.df_hepatitis (before ++ r :: after))) sel
      = Hepatitis.cases_filtered
          (Hepatitis.cases_over_time
             (Hepatitis.df_hepatitis (before ++ after))) sel) /\
  (forall sel,
      Hepatitis.yearly_cases
        (Hepatitis.cases_filtered
           (Hepatitis.cases_over_time
              (Hepatitis.df_hepatitis (before ++ r :: after))) sel)
      = Hepatitis.yearly_cases
          (Hepatitis.cases_filtered
             (Hepatitis.cases_over_time
                (Hepatitis.df_hepatitis (before ++ after))) sel)) /\
  (forall sel agg,
      App.hepatitis_bars (before ++ r :: after) sel agg
      = App.hepatitis_bars (before ++ after) sel agg).
Proof.
  intros H. apply no_month_year_dropped in H.
  assert (E : Hepatitis.df_hepatitis (before ++ r :: after)
              = Hepatitis.df_hepatitis (before ++ after)).
  { rewrite !df_hepatitis_app. simpl. now rewrite H. }
  unfold App.hepatitis_bars. rewrite E. repeat split; reflexivity.
Qed.

Lemma thirteenth_month_unparseable : no_month_year (Some "13-2015"%string).
Proof.
  right. exists "13-2015"%string. split; [|reflexivity]. split.
  - exists "1"%char, "3"%char, "2"%char, "0"%char, "1"%char, "5"%char.
    repeat split; reflexivity.
  - exists 0%nat. split.
    + exists EmptyString, EmptyString. split; reflexivity.
    + intros; lia.
Defined.

Lemma unparseable_row_ignored_witness :
  no_month_year (Hepatitis.refPeriod (Hepatitis.mkHep (Some "13-2015"%string) 5)) /\
  Hepatitis.df_hepatitis ([Hepatitis.mkHep (Some "01-2015"%string) 10]
                          ++ Hepatitis.mkHep (Some "13-2015"%string) 5
                             :: [Hepatitis.mkHep (Some "02-2015"%string) 4])
  = Hepatitis.df_hepatitis ([Hepatitis.mkHep (Some "01-2015"%string) 10]
                            ++ [Hepatitis.mkHep (Some "02-2015"%string) 4]).
Proof.
  split; [exact thirteenth_month_unparseable|].
  apply (unparseable_row_ignored
           [Hepatitis.mkHep (Some "01-2015"%string) 10] [Hepatitis.mkHep (Some "02-2015"%string) 4]
           (Hepatitis.mkHep (Some "13-2015"%string) 5)).
  exact thirteenth_month_unparseable.
Defined.

(** A text without any token, and a token inside free text. *)
Example extract_samples :
  Hepatitis.str_extract "n/a 2015" = None /\
  Hepatitis.str_extract "week of 03-2016 (rev. 04-2016)" = Some "03-2016"%string /\
  Hepatitis.to_datetime (Some "03-2016"%string) = Some (Hepatitis.mkTs 2016 3) /\
  Hepatitis.to_datetime (Some "00-2016"%string) = None /\
  Hepatitis.to_datetime (Some "12-1500"%string) = Some (Hepatitis.mkTs 1500 12) /\
  Hepatitis.date_row (Hepatitis.mkHep None 3) = None.
Proof. repeat split; reflexivity. Qed.

(** C4, amended.  For a table whose refPeriod column holds at least one
    text, with no year selected the filtered buckets are empty, both views
    have no bars, and the hepatitis section completes normally having drawn
    that empty chart. *)
Theorem empty_selection_empty_chart (csv : list Hepatitis.HepatitisRecord)
  (sl : option (Z * Z)) (rd : option Hepatitis.View) (b : bool)
  (w : App.World) :
  (exists r, In r csv /\ Hepatitis.has_text r = true) ->
  Hepatitis.cases_filtered
    (Hepatitis.cases_over_time (Hepatitis.df_hepatitis csv)) [] = [] /\
  App.hepatitis_bars csv [] Hepatitis.Monthly_Cases = [] /\
  App.hepatitis_bars csv [] Hepatitis.Yearly_Totals = [] /\
  snd (App.hepatitis_section csv (App.mkSession sl (Some []) rd b) w) = Ok tt /\
  In (App.BarChart [])
     (App.page (fst (App.hepatitis_section csv
                       (App.mkSession sl (Some []) rd b) w))).
Proof.
  intros Htext.
  assert (T : Hepatitis.text_typed csv = true).
  { destruct csv as [|x t]; [reflexivity|].
    unfold Hepatitis.text_typed. now apply existsb_exists. }
  assert (E : forall cot, Hepatitis.cases_filtered cot [] = []).
  { intros cot. unfold Hepatitis.cases_filtered.
    induction cot as [|x t IH]; simpl; [reflexivity | exact IH]. }
  assert (B : forall agg, App.hepatitis_bars csv [] agg = []).
  { intros agg. unfold App.hepatitis_bars. rewrite E. now destruct agg. }
  rewrite hepatitis_section_run, T. cbn zeta. cbn [fst snd App.page].
  unfold App.multiselect_value. cbn [App.multiselect_state].
  rewrite !B. repeat split; try apply E.
  apply in_or_app. right. simpl. tauto.
Qed.

Lemma empty_selection_empty_chart_witness :
  (exists r, In r sample_hepatitis /\ Hepatitis.has_text r = true) /\
  Hepatitis.cases_filtered
    (Hepatitis.cases_over_time (Hepatitis.df_hepatitis sample_hepatitis)) []
  = [] /\
  App.hepatitis_bars sample_hepatitis [] Hepatitis.Monthly_Cases = [] /\
  App.hepatitis_bars sample_hepatitis [] Hepatitis.Yearly_Totals = [] /\
  snd (App.hepatitis_section sample_hepatitis
         (App.mkSession None (Some []) None false) (App.mkWorld [] 0)) = Ok tt /\
  In (App.BarChart [])
     (App.page (fst (App.hepatitis_section sample_hepatitis
                       (App.mkSession None (Some []) None false)
                       (App.mkWorld [] 0)))).
Proof.
  assert (H : exists r, In r sample_hepatitis /\ Hepatitis.has_text r = true).
  { exists (Hepatitis.mkHep (Some "01-2015"%string) 10).
    split; [left; reflexivity | reflexivity]. }
  split; [exact H|].
  exact (empty_selection_empty_chart sample_hepatitis None None false
           (App.mkWorld [] 0) H).
Defined.

(** C4 as stated fails on a table whose refPeriod cells are all empty: with
    no year selected the hepatitis section does not draw an empty chart, it
    ends with the error of the .str accessor and draws no bar chart. *)
Lemma empty_selection_blank_column :
  snd (App.hepatitis_section blank_hepatitis
         (App.mkSession None (Some []) None false) (App.mkWorld [] 0))
  = Raise AttributeError /\
  App.page (fst (App.hepatitis_section blank_hepatitis
                   (App.mkSession None (Some []) None false) (App.mkWorld [] 0)))
  = [App.Static; App.Static] /\
  ~ In (App.BarChart [])
       (App.page (fst (App.hepatitis_section blank_hepatitis
                         (App.mkSession None (Some []) None false)
                         (App.mkWorld [] 0)))).
Proof.
  repeat split; try reflexivity.
  simpl. intros [H|[H|[]]]; discriminate H.
Qed.

(** C7.  The table with "01-2015" (10 cases) and "13-2015" (5 cases): the
    second refPeriod has the digit shape but is no month-year, only the
    first row is dated, and the total for the year "2015" is 10 in the
    monthly bucket, in the yearly re-aggregation and in the bars drawn. *)
Theorem sample_2015_total :
  Hepatitis.str_extract "13-2015" = Some "13-2015"%string /\
  Hepatitis.to_datetime (Some "13-2015"%string) = None /\
  Hepatitis.df_hepatitis sample_hepatitis
  = [Hepatitis.mkDated (Some "01-2015"%string) (Hepatitis.mkTs 2015 1) "2015" 10] /\
  Hepatitis.cases_over_time (Hepatitis.df_hepatitis sample_hepatitis)
  = [Hepatitis.mkBucket (Hepatitis.mkTs 2015 1) "2015" 10] /\
  Hepatitis.years_available
    (Hepatitis.cases_over_time (Hepatitis.df_hepatitis sample_hepatitis))
  = ["2015"%string] /\
  Hepatitis.yearly_cases
    (Hepatitis.cases_filtered
       (Hepatitis.cases_over_time (Hepatitis.df_hepatitis sample_hepatitis))
       ["2015"%string])
  = [("2015"%string, 10)] /\
  App.hepatitis_bars sample_hepatitis ["2015"%string] Hepatitis.Yearly_Totals
  = [Hepatitis.mkBar (Hepatitis.XYear "2015") 10 "2015"].
Proof. repeat split; vm_compute; reflexivity. Qed.

(** ** Year labels and dates *)

Lemma to_datetime_bounds (cell : option string) (d : Hepatitis.Timestamp) :
  Hepatitis.to_datetime cell = Some d ->
  Hepatitis.in_bounds (Hepatitis.year d) (Hepatitis.month d) = true.
Proof.
  unfold Hepatitis.to_datetime.
  destruct cell as [s|]; [|discriminate].
  destruct (Hepatitis.parse_m_dash s) as [[m rest]|]; [|discriminate].
  destruct (Hepatitis.parse_Y rest) as [y|]; [|discriminate].
  destruct (Hepatitis.in_bounds y m) eqn:B; [|discriminate].
  now intros [= <-].
Qed.

Lemma in_bounds_year (y m : Z) :
  Hepatitis.in_bounds y m = true -> 1 <= y <= 9999.
Proof.
  unfold Hepatitis.in_bounds. rewrite andb_true_iff, !Z.leb_le. tauto.
Qed.

(** The decimal text of a year up to 9999 has four characters exactly from
    the year 1000 on. *)
Lemma py_str_length (y : Z) :
  0 <= y <= 9999 ->
  (String.length (Hepatitis.py_str y) = 4%nat <-> 1000 <= y).
Proof.
  intros H.
  assert (C : forallb (fun n => Bool.eqb
                         (Nat.eqb (String.length
                                     (Hepatitis.py_str (Z.of_nat n))) 4)
                         (1000 <=? Z.of_nat n))
                      (seq 0 (Z.to_nat 10000)) = true) by (vm_compute; reflexivity).
  rewrite forallb_forall in C.
  specialize (C (Z.to_nat y)).
  replace (Z.of_nat (Z.to_nat y)) with y in C by lia.
  assert (Hin : In (Z.to_nat y) (seq 0 (Z.to_nat 10000))) by (apply in_seq; lia).
  apply C, eqb_prop in Hin.
  rewrite <- Nat.eqb_eq, <- Z.leb_le, Hin. tauto.
Qed.

Lemma df_hepatitis_rows (csv : list Hepatitis.HepatitisRecord)
  (r : Hepatitis.Dated) :
  In r (Hepatitis.df_hepatitis csv) ->
  Hepatitis.Year r = Hepatitis.py_str (Hepatitis.year (Hepatitis.Date r)) /\
  Hepatitis.in_bounds (Hepatitis.year (Hepatitis.Date r))
                      (Hepatitis.month (Hepatitis.Date r)) = true.
Proof.
  induction csv as [|x t IH]; simpl; [tauto|].
  destruct (Hepatitis.date_row x) as [d|] eqn:E; [|exact IH].
  intros [<-|Hin]; [|now apply IH].
  unfold Hepatitis.date_row in E.
  destruct (Hepatitis.to_datetime (Hepatitis.extract_cell (Hepatitis.refPeriod x)))
    as [ts|] eqn:T; [|discriminate].
  injection E as <-. simpl. split; [reflexivity|].
  now apply to_datetime_bounds in T.
Qed.

Lemma key_compare_dates (d d' : Hepatitis.Timestamp) :
  Hepatitis.key_compare
    (d, Hepatitis.py_str (Hepatitis.year d))
    (d', Hepatitis.py_str (Hepatitis.year d'))
  = Hepatitis.ts_compare d d'.
Proof.
  unfold Hepatitis.key_compare. simpl.
  destruct (Hepatitis.ts_compare d d') eqn:E; try reflexivity.
  apply ts_cmp_eq in E. subst. apply str_cmp_refl.
Qed.

Lemma add_group_by_date (d : Hepatitis.Timestamp) (v : Z)
  (acc : list ((Hepatitis.Timestamp * string) * Z)) :
  Forall year_of_date acc ->
  Forall year_of_date
    (add_group Hepatitis.key_compare
       (d, Hepatitis.py_str (Hepatitis.year d)) v acc) /\
  map by_date
    (add_group Hepatitis.key_compare
       (d, Hepatitis.py_str (Hepatitis.year d)) v acc)
  = add_group Hepatitis.ts_compare d v (map by_date acc).
Proof.
  induction acc as [|[[d' y'] s] t IH]; intros H.
  - simpl. split; [repeat constructor | reflexivity].
  - inversion H as [|? ? Hy Ht]; subst.
    unfold year_of_date in Hy. simpl in Hy. subst y'.
    specialize (IH Ht). destruct IH as [IH1 IH2].
    cbn [add_group map by_date fst snd].
    rewrite key_compare_dates.
    destruct (Hepatitis.ts_compare d d'); cbn [map by_date fst snd].
    + split; [|reflexivity]. constructor; [reflexivity | exact Ht].
    + split; [|reflexivity]. constructor; [reflexivity | exact H].
    + split; [|now rewrite IH2]. constructor; [reflexivity | exact IH1].
Qed.

Lemma groupby_by_date (df : list Hepatitis.Dated) :
  Forall (fun r => Hepatitis.Year r
                   = Hepatitis.py_str (Hepatitis.year (Hepatitis.Date r))) df ->
  Forall year_of_date (groupby_sum Hepatitis.key_compare (date_year_rows df)) /\
  map by_date (groupby_sum Hepatitis.key_compare (date_year_rows df))
  = groupby_sum Hepatitis.ts_compare (date_rows df).
Proof.
  induction df as [|r t IH] using rev_ind; intros H.
  - split; [constructor | reflexivity].
  - apply Forall_app in H. destruct H as [Ht Hr].
    inversion Hr as [|? ? Hy _]; subst.
    destruct (IH Ht) as [IH1 IH2].
    unfold date_year_rows, date_rows in *.
    rewrite !map_app. simpl map.
    rewrite !groupby_sum_snoc. cbn [fst snd]. rewrite Hy, <- IH2.
    now apply add_group_by_date.
Qed.

Lemma df_hepatitis_years (csv : list Hepatitis.HepatitisRecord) :
  Forall (fun r => Hepatitis.Year r
                   = Hepatitis.py_str (Hepatitis.year (Hepatitis.Date r)))
         (Hepatitis.df_hepatitis csv).
Proof.
  apply Forall_forall. intros r Hr. now apply df_hepatitis_rows in Hr.
Qed.

(** C9, amended.  In every bucket the Year label is the decimal year of the
    Date, so the label is determined by the date; it has four characters
    exactly when the year is 1000 or later.  Hence the buckets of the
    grouping by (Date, Year), read without their label, are the groups and
    sums of the grouping by Date alone. *)
Theorem year_determined_by_date (csv : list Hepatitis.HepatitisRecord) :
  Forall (fun b =>
            Hepatitis.b_Year b
            = Hepatitis.py_str (Hepatitis.year (Hepatitis.b_Date b)) /\
            (String.length (Hepatitis.b_Year b) = 4%nat
             <-> 1000 <= Hepatitis.year (Hepatitis.b_Date b)))
         (Hepatitis.cases_over_time (Hepatitis.df_hepatitis csv)) /\
  map (fun b => (Hepatitis.b_Date b, Hepatitis.b_cases b))
      (Hepatitis.cases_over_time (Hepatitis.df_hepatitis csv))
  = groupby_sum Hepatitis.ts_compare (date_rows (Hepatitis.df_hepatitis csv)).
Proof.
  destruct (groupby_by_date _ (df_hepatitis_years csv)) as [_ H2].
  split.
  - apply Forall_forall. intros b Hb.
    unfold Hepatitis.cases_over_time in Hb.
    apply in_map_iff in Hb. destruct Hb as (g & <- & Hg).
    assert (Hk : In (fst g) (map fst (date_year_rows (Hepatitis.df_hepatitis csv)))).
    { apply (groupby_keys _ Hepatitis.key_compare key_cmp_eq).
      apply in_map_iff. now exists g. }
    unfold date_year_rows in Hk. rewrite map_map in Hk.
    apply in_map_iff in Hk. destruct Hk as (r & Er & Hr).
    apply df_hepatitis_rows in Hr. destruct Hr as [Hy Hb].
    cbn [Hepatitis.bucket_of Hepatitis.b_Year Hepatitis.b_Date].
    rewrite <- Er. cbn [fst snd].
    split; [exact Hy|]. rewrite Hy.
    apply py_str_length. apply in_bounds_year in Hb. lia.
  - unfold Hepatitis.cases_over_time. rewrite map_map. exact H2.
Qed.

(** C9 as stated fails on a row of the year 999: the row is dated, and its
    bucket carries the label "999", which is not the four-digit year 0999 of
    the date. *)
Lemma year_label_three_digits :
  Hepatitis.cases_over_time (Hepatitis.df_hepatitis old_hepatitis)
  = [Hepatitis.mkBucket (Hepatitis.mkTs 999 1) "999" 5] /\
  ~ Forall (fun b => String.length (Hepatitis.b_Year b) = 4%nat)
      (Hepatitis.cases_over_time (Hepatitis.df_hepatitis old_hepatitis)).
Proof.
  split; [vm_compute; reflexivity|].
  intros H. inversion H as [|? ? H1 _]. vm_compute in H1. discriminate H1.
Qed.

(** ** Re-aggregation by year *)

Lemma bucket_rows_of_year (sel : list string) (k : string)
  (G : list ((Hepatitis.Timestamp * string) * Z)) :
  map snd
    (filter (fun kv => match String_as_OT.compare (fst kv) k with
                       | Eq => true
                       | _ => false
                       end)
       (bucket_rows (Hepatitis.cases_filtered (map Hepatitis.bucket_of G) sel)))
  = map snd (filter (fun g => selected_year sel k (fst g)) G).
Proof.
  unfold bucket_rows, Hepatitis.cases_filtered, selected_year.
  induction G as [|[[d y] s] t IH]; [reflexivity|].
  cbn -[Hepatitis.isin String_as_OT.compare] in *.
  destruct (Hepatitis.isin sel y);
    cbn -[Hepatitis.isin String_as_OT.compare]; [|exact IH].
  destruct (String_as_OT.compare y k);
    cbn -[Hepatitis.isin String_as_OT.compare]; now rewrite IH.
Qed.

Lemma year_rows_of_year (sel : list string) (k : string)
  (df : list Hepatitis.Dated) :
  map snd
    (filter (fun kv => match String_as_OT.compare (fst kv) k with
                       | Eq => true
                       | _ => false
                       end)
       (year_rows (retained sel df)))
  = map snd (filter (fun g => selected_year sel k (fst g)) (date_year_rows df)).
Proof.
  unfold year_rows, retained, date_year_rows, selected_year.
  induction df as [|r t IH]; [reflexivity|].
  cbn -[Hepatitis.isin String_as_OT.compare] in *.
  destruct (Hepatitis.isin sel (Hepatitis.Year r));
    cbn -[Hepatitis.isin String_as_OT.compare]; [|exact IH].
  destruct (String_as_OT.compare (Hepatitis.Year r) k);
    cbn -[Hepatitis.isin String_as_OT.compare]; now rewrite IH.
Qed.

Lemma bucket_years (sel : list string) (df : list Hepatitis.Dated) (k : string) :
  In k (map fst (bucket_rows
                   (Hepatitis.cases_filtered (Hepatitis.cases_over_time df) sel)))
  <-> Hepatitis.isin sel k = true /\ In k (map Hepatitis.Year df).
Proof.
  unfold bucket_rows, Hepatitis.cases_filtered, Hepatitis.cases_over_time.
  rewrite map_map. cbn [fst]. rewrite in_map_iff. split.
  - intros (b & <- & Hb). apply filter_In in Hb. destruct Hb as [Hb Hs].
    split; [exact Hs|].
    apply in_map_iff in Hb. destruct Hb as (g & <- & Hg).
    assert (Hk : In (fst g) (map fst (date_year_rows df))).
    { apply (groupby_keys _ Hepatitis.key_compare key_cmp_eq).
      apply in_map_iff. now exists g. }
    unfold date_year_rows in Hk. rewrite map_map in Hk.
    apply in_map_iff in Hk. destruct Hk as (r & Er & Hr).
    cbn [Hepatitis.bucket_of Hepatitis.b_Year]. rewrite <- Er. cbn [fst snd].
    apply in_map_iff. now exists r.
  - intros (Hs & Hk). apply in_map_iff in Hk. destruct Hk as (r & <- & Hr).
    assert (Hg : In (Hepatitis.Date r, Hepatitis.Year r)
                    (map fst (groupby_sum Hepatitis.key_compare
                                (date_year_rows df)))).
    { apply (groupby_keys _ Hepatitis.key_compare key_cmp_eq).
      unfold date_year_rows. rewrite map_map. cbn [fst].
      apply in_map_iff. now exists r. }
    apply in_map_iff in Hg. destruct Hg as (g & Eg & Hg).
    exists (Hepatitis.bucket_of g). split.
    + cbn [Hepatitis.bucket_of Hepatitis.b_Year]. now rewrite Eg.
    + apply filter_In. split.
      * apply in_map_iff. now exists g.
      * cbn [Hepatitis.bucket_of Hepatitis.b_Year]. now rewrite Eg.
Qed.

Lemma retained_years (sel : list string) (df : list Hepatitis.Dated) (k : string) :
  In k (map fst (year_rows (retained sel df)))
  <-> Hepatitis.isin sel k = true /\ In k (map Hepatitis.Year df).
Proof.
  unfold year_rows, retained. rewrite map_map. cbn [fst].
  rewrite !in_map_iff. split.
  - intros (r & <- & Hr). apply filter_In in Hr. destruct Hr as [Hr Hs].
    split; [exact Hs | now exists r].
  - intros (Hs & r & <- & Hr). exists r. split; [reflexivity|].
    apply filter_In. now split.
Qed.

Lemma bucket_rows_total (y : string) (cf : list Hepatitis.CaseBucket) :
  group_total String_as_OT.compare y (bucket_rows cf)
  = sum64 (map Hepatitis.b_cases
             (filter (fun b => String.eqb (Hepatitis.b_Year b) y) cf)).
Proof.
  unfold group_total, bucket_rows. f_equal.
  induction cf as [|b t IH]; [reflexivity|].
  cbn [map filter fst]. rewrite str_cmp_eqb.
  destruct (String.eqb (Hepatitis.b_Year b) y); cbn [map snd]; now rewrite IH.
Qed.

(** Grouping the year-filtered buckets by Year gives what grouping the
    retained rows by Year gives. *)
Lemma yearly_cases_of_rows (df : list Hepatitis.Dated) (sel : list string) :
  Hepatitis.yearly_cases
    (Hepatitis.cases_filtered (Hepatitis.cases_over_time df) sel)
  = groupby_sum String_as_OT.compare (year_rows (retained sel df)).
Proof.
  unfold Hepatitis.yearly_cases.
  change (map (fun b => (Hepatitis.b_Year b, Hepatitis.b_cases b)) ?cf)
    with (bucket_rows cf).
  apply (groupby_ext _ _ str_cmp_eq str_cmp_refl str_cmp_gt str_cmp_trans).
  - intros k. apply eq_true_iff_eq.
    rewrite !(has_key_in _ _ str_cmp_eq str_cmp_refl).
    now rewrite bucket_years, retained_years.
  - intros k. unfold group_total, Hepatitis.cases_over_time.
    rewrite bucket_rows_of_year, year_rows_of_year, !sum64_sumZ.
    apply (groupby_part _ Hepatitis.key_compare key_cmp_eq).
Qed.

Lemma isin_true (sel : list string) (y : string) :
  Hepatitis.isin sel y = true <-> In y sel.
Proof.
  unfold Hepatitis.isin. rewrite existsb_exists. split.
  - intros (x & Hx & E). apply String.eqb_eq in E. now subst.
  - intros H. exists y. split; [exact H | apply String.eqb_refl].
Qed.

Lemma year_rows_total (y : string) (df : list Hepatitis.Dated) :
  group_total String_as_OT.compare y (year_rows df)
  = wrap64 (sumZ (map Hepatitis.cases
                    (filter (fun r => String.eqb (Hepatitis.Year r) y) df))).
Proof.
  unfold group_total, year_rows. rewrite sum64_sumZ. do 2 f_equal.
  induction df as [|r t IH]; [reflexivity|].
  cbn [map filter fst]. rewrite str_cmp_eqb.
  destruct (String.eqb (Hepatitis.Year r) y); cbn [map snd]; now rewrite IH.
Qed.

(** C2.  For any table and any selection of years: the yearly totals list
    one entry per selected year that occurs among the dated rows, in
    ascending year order; each entry is the sum (in the 64-bit column) of
    the monthly bucket totals of that year in the filtered view, and equally
    the sum of Number of cases over the retained dated rows of that year;
    the whole list is what summing the retained rows by Year gives; and the
    bars of the "Yearly Totals" view are these entries. *)
Theorem yearly_totals_reaggregate (csv : list Hepatitis.HepatitisRecord)
  (sel : list string) :
  Forall (fun g =>
            snd g = wrap64 (sumZ (map Hepatitis.b_cases
                             (filter (fun b => String.eqb (Hepatitis.b_Year b) (fst g))
                                (Hepatitis.cases_filtered
                                   (Hepatitis.cases_over_time
                                      (Hepatitis.df_hepatitis csv)) sel)))) /\
            snd g = wrap64 (sumZ (map Hepatitis.cases
                             (filter (fun r => String.eqb (Hepatitis.Year r) (fst g))
                                (retained sel (Hepatitis.df_hepatitis csv))))))
         (Hepatitis.yearly_cases
            (Hepatitis.cases_filtered
               (Hepatitis.cases_over_time (Hepatitis.df_hepatitis csv)) sel)) /\
  (forall y,
      In y (map fst (Hepatitis.yearly_cases
                       (Hepatitis.cases_filtered
                          (Hepatitis.cases_over_time
                             (Hepatitis.df_hepatitis csv)) sel)))
      <-> In y (map Hepatitis.b_Year
                  (Hepatitis.cases_filtered
                     (Hepatitis.cases_over_time
                        (Hepatitis.df_hepatitis csv)) sel))) /\
  (forall y,
      In y (map fst (Hepatitis.yearly_cases
                       (Hepatitis.cases_filtered
                          (Hepatitis.cases_over_time
                             (Hepatitis.df_hepatitis csv)) sel)))
      <-> In y sel /\ In y (map Hepatitis.Year (Hepatitis.df_hepatitis csv))) /\
  keys_ascending String_as_OT.compare
    (Hepatitis.yearly_cases
       (Hepatitis.cases_filtered
          (Hepatitis.cases_over_time (Hepatitis.df_hepatitis csv)) sel)) /\
  Hepatitis.yearly_cases
    (Hepatitis.cases_filtered
       (Hepatitis.cases_over_time (Hepatitis.df_hepatitis csv)) sel)
  = groupby_sum String_as_OT.compare
      (year_rows (retained sel (Hepatitis.df_hepatitis csv))) /\
  App.hepatitis_bars csv sel Hepatitis.Yearly_Totals
  = map (fun g => Hepatitis.mkBar (Hepatitis.XYear (fst g)) (snd g) (fst g))
      (Hepatitis.yearly_cases
         (Hepatitis.cases_filtered
            (Hepatitis.cases_over_time (Hepatitis.df_hepatitis csv)) sel)).
Proof.
  set (cf := Hepatitis.cases_filtered
               (Hepatitis.cases_over_time (Hepatitis.df_hepatitis csv)) sel).
  assert (Hasc : keys_ascending String_as_OT.compare (Hepatitis.yearly_cases cf))
    by apply (groupby_ascending _ _ str_cmp_eq str_cmp_gt str_cmp_trans).
  assert (Hkeys : forall y,
             In y (map fst (Hepatitis.yearly_cases cf))
             <-> In y (map Hepatitis.b_Year cf)).
  { intros y. unfold Hepatitis.yearly_cases.
    rewrite (groupby_keys _ _ str_cmp_eq), map_map. reflexivity. }
  split; [|split; [exact Hkeys | split; [|split; [exact Hasc | split]]]].
  - apply Forall_forall. intros [y t] Hin. cbn [fst snd]. split.
    + apply (lookup_in _ _ str_cmp_eq str_cmp_refl _ _ _ Hasc) in Hin.
      unfold Hepatitis.yearly_cases in Hin.
      rewrite (lookup_groupby _ _ str_cmp_eq str_cmp_refl str_cmp_gt
                 str_cmp_trans) in Hin.
      destruct (has_key _ _ _); [|discriminate].
      injection Hin as <-.
      rewrite <- sum64_sumZ. apply bucket_rows_total.
    + unfold cf in Hin. rewrite yearly_cases_of_rows in Hin.
      apply (lookup_in _ _ str_cmp_eq str_cmp_refl) in Hin;
        [|apply (groupby_ascending _ _ str_cmp_eq str_cmp_gt str_cmp_trans)].
      rewrite (lookup_groupby _ _ str_cmp_eq str_cmp_refl str_cmp_gt
                 str_cmp_trans) in Hin.
      destruct (has_key _ _ _); [|discriminate].
      injection Hin as <-. apply year_rows_total.
  - intros y. rewrite Hkeys.
    pose proof (bucket_years sel (Hepatitis.df_hepatitis csv) y) as B.
    unfold bucket_rows in B. rewrite map_map in B. cbn [fst] in B.
    fold cf in B. rewrite B, isin_true. reflexivity.
  - apply yearly_cases_of_rows.
  - reflexivity.
Qed.

(** Two months of 2015 and one of 2016, with all years selected. *)
Example yearly_sample :
  Hepatitis.yearly_cases
    (Hepatitis.cases_filtered
       (Hepatitis.cases_over_time
          (Hepatitis.df_hepatitis
             [Hepatitis.mkHep (Some "03-2016"%string) 7; Hepatitis.mkHep (Some "01-2015"%string) 10;
              Hepatitis.mkHep (Some "02-2015"%string) 4; Hepatitis.mkHep (Some "01-2015"%string) 1]))
       ["2015"%string; "2016"%string])
  = [("2015"%string, 15); ("2016"%string, 7)].
Proof. vm_compute. reflexivity. Qed.

(** * Further properties of the debt section *)

Lemma filter_all {A} (p : A -> bool) (l : list A) :
  Forall (fun x => p x = true) l -> filter p l = l.
Proof.
  induction 1 as [|x t Hx _ IH]; simpl; [reflexivity|].
  now rewrite Hx, IH.
Qed.

Lemma filter_none {A} (p : A -> bool) (l : list A) :
  Forall (fun x => p x = false) l -> filter p l = [].
Proof.
  induction 1 as [|x t Hx _ IH]; simpl; [reflexivity|].
  now rewrite Hx, IH.
Qed.

Lemma min_year_bound (df : list Debt.DebtRecord) (mn : Z) :
  Debt.min_year df = Ok mn ->
  df <> [] /\ Forall (fun r => mn <= Debt.refPeriod r) df.
Proof.
  intros H.
  assert (Hne : df <> []) by (intros ->; discriminate).
  destruct (min_year_ok df Hne) as (lo & E & _ & L).
  rewrite H in E. injection E as ->. now split.
Qed.

Lemma max_year_bound (df : list Debt.DebtRecord) (mx : Z) :
  Debt.max_year df = Ok mx ->
  df <> [] /\ Forall (fun r => Debt.refPeriod r <= mx) df.
Proof.
  intros H.
  assert (Hne : df <> []) by (intros ->; discriminate).
  destruct (max_year_ok df Hne) as (hi & E & _ & L).
  rewrite H in E. injection E as ->. now split.
Qed.

(** X1.  For a table whose indicator rows span at least two years, safe
    integers, selecting the whole range shows every row of the indicator:
    the range filter removes nothing for (min_year, max_year), and nothing
    for the full extent of the control as offered. *)
Theorem full_range_shows_all (csv : list Debt.DebtRecord) (mn mx : Z) :
  Debt.min_year (Debt.df_debt csv) = Ok mn ->
  Debt.max_year (Debt.df_debt csv) = Ok mx ->
  mn < mx ->
  - Debt.MAX_SAFE_INTEGER <= mn -> mx <= Debt.MAX_SAFE_INTEGER ->
  Debt.filter_range (mn, mx) (Debt.df_debt csv) = Debt.df_debt csv /\
  Debt.df_debt_filtered csv (fun _ => (mn, mx)) = Ok (Debt.df_debt csv) /\
  Debt.df_debt_filtered csv
    (fun widget => (Debt.min_value widget, Debt.max_value widget))
  = Ok (Debt.df_debt csv).
Proof.
  intros Hmn Hmx Hlt Hs1 Hs2.
  destruct (min_year_bound _ _ Hmn) as [Hne Lmn].
  destruct (max_year_bound _ _ Hmx) as [_ Lmx].
  assert (Hall : forall lo hi, lo <= mn -> mx <= hi ->
             Debt.filter_range (lo, hi) (Debt.df_debt csv) = Debt.df_debt csv).
  { intros lo hi Hlo Hhi. apply filter_all.
    rewrite Forall_forall in Lmn, Lmx |- *. intros r Hr.
    apply in_range_true. specialize (Lmn r Hr). specialize (Lmx r Hr). lia. }
  pose proof (year_widget_ok csv mn mx Hmn Hmx Hlt Hs1 Hs2) as Hw.
  split; [apply Hall; lia|].
  unfold Debt.df_debt_filtered. rewrite Hw. cbn [bind_result].
  cbn [Debt.min_value Debt.max_value].
  split; f_equal; apply Hall; lia.
Qed.

Lemma full_range_shows_all_witness :
  Debt.filter_range (1970, 2022) (Debt.df_debt sample_debt)
  = Debt.df_debt sample_debt /\
  Debt.df_debt_filtered sample_debt (fun _ => (1970, 2022))
  = Ok (Debt.df_debt sample_debt) /\
  Debt.df_debt_filtered sample_debt
    (fun widget => (Debt.min_value widget, Debt.max_value widget))
  = Ok (Debt.df_debt sample_debt).
Proof.
  apply (full_range_shows_all sample_debt 1970 2022);
    [reflexivity | reflexivity | lia
    | unfold Debt.MAX_SAFE_INTEGER; lia | unfold Debt.MAX_SAFE_INTEGER; lia].
Defined.

(** X2.  On a first load (slider untouched) of a table whose indicator rows
    span at least two years, safe integers, and reach 1970 or later, the
    line chart shows exactly the rows of the indicator from 1970 on: earlier
    years are hidden, no later year is cut off. *)
Theorem default_range_from_1970 (csv : list Debt.DebtRecord) (mn mx : Z) :
  Debt.min_year (Debt.df_debt csv) = Ok mn ->
  Debt.max_year (Debt.df_debt csv) = Ok mx ->
  mn < mx -> 1970 <= mx ->
  - Debt.MAX_SAFE_INTEGER <= mn -> mx <= Debt.MAX_SAFE_INTEGER ->
  forall hep ms rd b now,
    In (App.LineChart
          (filter (fun r => 1970 <=? Debt.refPeriod r) (Debt.df_debt csv)))
       (App.page (fst (App.run csv hep (App.mkSession None ms rd b) now))).
Proof.
  intros Hmn Hmx Hlt H70 Hs1 Hs2 hep ms rd b now.
  destruct (max_year_bound _ _ Hmx) as [Hdf Lmx].
  pose proof (year_widget_ok csv mn mx Hmn Hmx Hlt Hs1 Hs2) as Hw.
  destruct (debt_drawn csv hep (App.mkSession None ms rd b) now _ Hw) as [_ H].
  replace (filter (fun r => 1970 <=? Debt.refPeriod r) (Debt.df_debt csv))
    with (Debt.filter_range
            (App.slider_value (App.mkSession None ms rd b)
               (Debt.mkSlider (Z.min 1970 mn) (Z.max 1970 mx)
                  (Z.min 1970 mx, Z.max 1970 mx))) (Debt.df_debt csv));
    [exact H|].
  unfold Debt.filter_range, App.slider_value.
  cbn [App.slider_state Debt.value].
  apply filter_ext_in. intros r Hr.
  unfold Debt.in_range. cbn [fst snd].
  replace (Z.min 1970 mx) with 1970 by lia.
  replace (Z.max 1970 mx) with mx by lia.
  rewrite Forall_forall in Lmx. specialize (Lmx r Hr).
  apply Z.leb_le in Lmx. rewrite Lmx. apply andb_true_r.
Qed.

Lemma default_range_from_1970_witness :
  Debt.max_year (Debt.df_debt sample_debt) = Ok 2022 /\
  (forall hep ms rd b now,
      In (App.LineChart
            (filter (fun r => 1970 <=? Debt.refPeriod r)
               (Debt.df_debt sample_debt)))
         (App.page (fst (App.run sample_debt hep
                           (App.mkSession None ms rd b) now)))).
Proof.
  split; [reflexivity|].
  apply (default_range_from_1970 sample_debt 1970 2022);
    [reflexivity | reflexivity | lia | lia
    | unfold Debt.MAX_SAFE_INTEGER; lia | unfold Debt.MAX_SAFE_INTEGER; lia].
Defined.

(** X3.  Narrowing the year range only removes points: the view of a range
    inside another is the view of the wider range filtered again. *)
Theorem narrower_range_refines (df : list Debt.DebtRecord) (lo hi lo' hi' : Z) :
  lo' <= lo -> hi <= hi' ->
  Debt.filter_range (lo, hi) (Debt.filter_range (lo', hi') df)
  = Debt.filter_range (lo, hi) df.
Proof.
  intros Hlo Hhi. unfold Debt.filter_range. rewrite filter_filter.
  apply filter_ext. intros r. unfold Debt.in_range. simpl.
  destruct (lo <=? Debt.refPeriod r) eqn:E1;
    destruct (Debt.refPeriod r <=? hi) eqn:E2;
    rewrite ?andb_false_r; try reflexivity.
  apply Z.leb_le in E1, E2.
  assert (E3 : (lo' <=? Debt.refPeriod r) = true) by (apply Z.leb_le; lia).
  assert (E4 : (Debt.refPeriod r <=? hi') = true) by (apply Z.leb_le; lia).
  now rewrite E3, E4.
Qed.

Lemma narrower_range_refines_witness :
  Debt.filter_range (1975, 1985)
    (Debt.filter_range (1970, 2022) (Debt.df_debt sample_debt))
  = Debt.filter_range (1975, 1985) (Debt.df_debt sample_debt).
Proof.
  apply (narrower_range_refines (Debt.df_debt sample_debt) 1975 1985 1970 2022);
    lia.
Defined.

(** X4.  A range whose lower end lies above its upper end selects no row. *)
Theorem inverted_range_empty (df : list Debt.DebtRecord) (lo hi : Z) :
  hi < lo -> Debt.filter_range (lo, hi) df = [].
Proof.
  intros H. apply filter_none, Forall_forall. intros r _.
  unfold Debt.in_range. simpl.
  destruct (lo <=? Debt.refPeriod r) eqn:E1; [|reflexivity].
  apply Z.leb_le in E1. apply Z.leb_gt. lia.
Qed.

Lemma inverted_range_empty_witness :
  Debt.filter_range (1980, 1970) (Debt.df_debt sample_debt) = [].
Proof. apply (inverted_range_empty (Debt.df_debt sample_debt) 1980 1970). lia. Defined.

(** X5.  A run ends normally, having drawn the line chart and the bar
    chart, whenever the indicator rows span at least two years, safe
    integers, and the refPeriod column of the hepatitis table holds at least
    one text. *)
Theorem run_succeeds (debt_csv : list Debt.DebtRecord)
  (hep_csv : list Hepatitis.HepatitisRecord) (s : App.Session) (now : Z)
  (mn mx : Z) :
  Debt.min_year (Debt.df_debt debt_csv) = Ok mn ->
  Debt.max_year (Debt.df_debt debt_csv) = Ok mx ->
  mn < mx ->
  - Debt.MAX_SAFE_INTEGER <= mn -> mx <= Debt.MAX_SAFE_INTEGER ->
  (exists r, In r hep_csv /\ Hepatitis.has_text r = true) ->
  snd (App.run debt_csv hep_csv s now) = Ok tt /\
  exists view bars,
    App.charts (fst (App.run debt_csv hep_csv s now))
    = [App.LineChart view; App.BarChart bars].
Proof.
  intros Hmn Hmx Hlt Hs1 Hs2 Htext.
  assert (T : Hepatitis.text_typed hep_csv = true).
  { destruct hep_csv as [|x t]; [reflexivity|].
    unfold Hepatitis.text_typed. now apply existsb_exists. }
  pose proof (run_charts debt_csv hep_csv s now) as H.
  rewrite (year_widget_ok debt_csv mn mx Hmn Hmx Hlt Hs1 Hs2), T in H.
  destruct H as [H1 H2]. split; [exact H1|].
  eexists. eexists. exact H2.
Qed.

Lemma run_succeeds_witness :
  snd (App.run sample_debt sample_hepatitis
         (App.mkSession None None None true) 0) = Ok tt /\
  exists view bars,
    App.charts (fst (App.run sample_debt sample_hepatitis
                       (App.mkSession None None None true) 0))
    = [App.LineChart view; App.BarChart bars].
Proof.
  apply (run_succeeds sample_debt sample_hepatitis
           (App.mkSession None None None true) 0 1970 2022);
    [reflexivity | reflexivity | lia
    | unfold Debt.MAX_SAFE_INTEGER; lia | unfold Debt.MAX_SAFE_INTEGER; lia |].
  exists (Hepatitis.mkHep (Some "01-2015"%string) 10).
  split; [left; reflexivity | reflexivity].
Defined.

(** X6.  Rows of other indicators never reach the debt section: taking such
    a row out of the table changes neither the sorted table, nor the slider,
    nor the filtered view. *)
Theorem other_indicator_ignored (before after : list Debt.DebtRecord)
  (r : Debt.DebtRecord) :
  Debt.Indicator_Code r <> Debt.INDICATOR ->
  Debt.df_debt (before ++ r :: after) = Debt.df_debt (before ++ after) /\
  Debt.slider_request (before ++ r :: after)
  = Debt.slider_request (before ++ after) /\
  (forall pick,
      Debt.df_debt_filtered (before ++ r :: after) pick
      = Debt.df_debt_filtered (before ++ after) pick).
Proof.
  intros H.
  assert (E : Debt.df_debt (before ++ r :: after) = Debt.df_debt (before ++ after)).
  { unfold Debt.df_debt, Debt.select_indicator. rewrite !filter_app. simpl.
    destruct (Debt.has_indicator r) eqn:C; [|reflexivity].
    apply has_indicator_true in C. contradiction. }
  unfold Debt.df_debt_filtered, Debt.year_widget, Debt.slider_request.
  rewrite E. repeat split; reflexivity.
Qed.

Lemma other_indicator_ignored_witness :
  Debt.df_debt ([Debt.mkDebt 1980 "DT.TDS.DPPG.CD" 50]
                ++ Debt.mkDebt 1975 "NY.GDP.MKTP.CD" 7
                   :: [Debt.mkDebt 1970 "DT.TDS.DPPG.CD" 5])
  = Debt.df_debt ([Debt.mkDebt 1980 "DT.TDS.DPPG.CD" 50]
                  ++ [Debt.mkDebt 1970 "DT.TDS.DPPG.CD" 5]) /\
  Debt.slider_request ([Debt.mkDebt 1980 "DT.TDS.DPPG.CD" 50]
                       ++ Debt.mkDebt 1975 "NY.GDP.MKTP.CD" 7
                          :: [Debt.mkDebt 1970 "DT.TDS.DPPG.CD" 5])
  = Debt.slider_request ([Debt.mkDebt 1980 "DT.TDS.DPPG.CD" 50]
                         ++ [Debt.mkDebt 1970 "DT.TDS.DPPG.CD" 5]) /\
  (forall pick,
      Debt.df_debt_filtered ([Debt.mkDebt 1980 "DT.TDS.DPPG.CD" 50]
                             ++ Debt.mkDebt 1975 "NY.GDP.MKTP.CD" 7
                                :: [Debt.mkDebt 1970 "DT.TDS.DPPG.CD" 5]) pick
      = Debt.df_debt_filtered ([Debt.mkDebt 1980 "DT.TDS.DPPG.CD" 50]
                               ++ [Debt.mkDebt 1970 "DT.TDS.DPPG.CD" 5]) pick).
Proof.
  apply (other_indicator_ignored
           [Debt.mkDebt 1980 "DT.TDS.DPPG.CD" 50]
           [Debt.mkDebt 1970 "DT.TDS.DPPG.CD" 5]
           (Debt.mkDebt 1975 "NY.GDP.MKTP.CD" 7)).
  discriminate.
Defined.

Lemma NoDup_map_inj {A B} (f : A -> B) (l : list A) (a b : A) :
  NoDup (map f l) -> In a l -> In b l -> f a = f b -> a = b.
Proof.
  induction l as [|x t IH]; simpl; [tauto|].
  intros Hnd Ha Hb E. inversion Hnd as [|? ? Hx Ht]; subst.
  destruct Ha as [<-|Ha], Hb as [<-|Hb]; auto.
  - exfalso. apply Hx. rewrite E. now apply in_map.
  - exfalso. apply Hx. rewrite <- E. now apply in_map.
Qed.

(** With one row per year there is only one ascending arrangement. *)
Lemma sorted_perm_unique (l1 : list Debt.DebtRecord) :
  forall l2,
    NoDup (map Debt.refPeriod l1) ->
    StronglySorted period_le l1 -> StronglySorted period_le l2 ->
    Permutation l1 l2 -> l1 = l2.
Proof.
  induction l1 as [|x1 t1 IH]; intros l2 Hnd S1 S2 P.
  - apply Permutation_nil in P. now subst.
  - destruct l2 as [|x2 t2].
    { apply Permutation_sym, Permutation_nil in P. discriminate. }
    inversion S1 as [|? ? S1' F1]; inversion S2 as [|? ? S2' F2]; subst.
    assert (I2 : In x2 (x1 :: t1))
      by (apply (Permutation_in _ (Permutation_sym P)); now left).
    assert (I1 : In x1 (x2 :: t2))
      by (apply (Permutation_in _ P); now left).
    assert (E : x1 = x2).
    { apply (NoDup_map_inj Debt.refPeriod (x1 :: t1) x1 x2 Hnd
                (or_introl eq_refl) I2).
      rewrite Forall_forall in F1, F2. unfold period_le in *.
      destruct I2 as [->|I2]; [reflexivity|].
      destruct I1 as [->|I1]; [reflexivity|].
      specialize (F1 _ I2). specialize (F2 _ I1). lia. }
    subst x2. f_equal.
    apply IH; auto.
    + simpl in Hnd. now inversion Hnd.
    + now apply Permutation_cons_inv in P.
Qed.

(** X7.  When every year occurs once among the rows of the indicator, the
    order of the rows in the CSV does not matter: a rearranged table gives
    the same sorted table, the same slider and the same filtered view. *)
Theorem row_order_irrelevant_debt (csv csv' : list Debt.DebtRecord) :
  Permutation csv csv' ->
  NoDup (map Debt.refPeriod (Debt.select_indicator csv)) ->
  Debt.df_debt csv = Debt.df_debt csv' /\
  (forall pick, Debt.df_debt_filtered csv pick = Debt.df_debt_filtered csv' pick).
Proof.
  intros P Hnd.
  assert (E : Debt.df_debt csv = Debt.df_debt csv').
  { assert (Pd : Permutation (Debt.df_debt csv) (Debt.df_debt csv')).
    { unfold Debt.df_debt.
      eapply perm_trans; [apply sort_values_perm|].
      eapply perm_trans; [|apply Permutation_sym, sort_values_perm].
      now apply filter_perm. }
    apply sorted_perm_unique.
    - eapply Permutation_NoDup; [|exact Hnd].
      apply Permutation_map, Permutation_sym, sort_values_perm.
    - apply sort_values_sorted.
    - apply sort_values_sorted.
    - exact Pd. }
  split; [exact E|].
  intros pick.
  unfold Debt.df_debt_filtered, Debt.year_widget, Debt.slider_request.
  now rewrite E.
Qed.

Lemma row_order_irrelevant_debt_witness :
  Debt.df_debt late_debt = Debt.df_debt (rev late_debt) /\
  (forall pick,
      Debt.df_debt_filtered late_debt pick
      = Debt.df_debt_filtered (rev late_debt) pick).
Proof.
  apply (row_order_irrelevant_debt late_debt (rev late_debt)).
  - apply Permutation_rev.
  - simpl. repeat constructor; simpl; intuition discriminate.
Defined.

(** * Further properties of the hepatitis section *)

(** X8.  The extraction finds nothing exactly when the text has no substring
    of the shape two digits, hyphen, four digits, and otherwise returns the
    first such substring, whatever surrounds it. *)
Theorem extract_is_first_token (s : string) :
  (Hepatitis.str_extract s = None <->
   forall t n, token_shape t -> ~ occurs_at t s n) /\
  (forall t, Hepatitis.str_extract s = Some t <-> first_token s t).
Proof.
  split; [apply str_extract_none | intros t; apply str_extract_some].
Qed.

Lemma is_digit_val (c : ascii) :
  Hepatitis.is_digit c = true -> 0 <= Hepatitis.digit_val c <= 9.
Proof.
  unfold Hepatitis.is_digit, Hepatitis.digit_val.
  rewrite andb_true_iff, !Nat.leb_le. lia.
Qed.

Lemma digit_not_dash (c : ascii) :
  Hepatitis.is_digit c = true -> Ascii.eqb c "-" = false.
Proof.
  intros H. destruct (Ascii.eqb_spec c "-") as [->|]; [|reflexivity].
  discriminate H.
Qed.

(** What the date parser reads from a token. *)
Lemma to_datetime_token (a b d e f g : ascii) (ts : Hepatitis.Timestamp) :
  Hepatitis.is_digit a = true -> Hepatitis.is_digit b = true ->
  Hepatitis.is_digit d = true -> Hepatitis.is_digit e = true ->
  Hepatitis.is_digit f = true -> Hepatitis.is_digit g = true ->
  Hepatitis.to_datetime
    (Some (String a (String b (String "-" (String d (String e (String f
             (String g EmptyString)))))))) = Some ts ->
  Hepatitis.month ts = token_month a b /\
  Hepatitis.year ts = token_year d e f g /\
  1 <= Hepatitis.month ts <= 12.
Proof.
  intros Da Db Dd De Df Dg.
  unfold Hepatitis.to_datetime, Hepatitis.parse_m_dash. cbv beta iota.
  rewrite (digit_not_dash b Db), Db.
  change (Ascii.eqb "-" "-") with true. cbn [andb].
  destruct (Ascii.eqb a "1" && (Hepatitis.digit_val b <=? 2) && true
            || Ascii.eqb a "0" && (1 <=? Hepatitis.digit_val b) && true) eqn:C;
    [|discriminate].
  unfold Hepatitis.parse_Y. cbv beta iota.
  rewrite Dd, De, Df, Dg. cbn [andb].
  fold (token_year d e f g). fold (token_month a b).
  destruct (Hepatitis.in_bounds _ _); [|discriminate].
  intros [= <-]. cbn [Hepatitis.month Hepatitis.year].
  split; [reflexivity | split; [reflexivity|]].
  pose proof (is_digit_val b Db) as Hb.
  unfold token_month.
  apply orb_true_iff in C.
  destruct C as [C|C]; rewrite !andb_true_iff in C; destruct C as [[C1 C2] _];
    apply Ascii.eqb_eq in C1; subst a;
    change (Hepatitis.digit_val "1") with 1;
    change (Hepatitis.digit_val "0") with 0;
    apply Z.leb_le in C2; lia.
Qed.

(** X9.  Every row that survives the date parsing carries a token dd-dddd
    whose digits are its date: the month is the two-digit number, between 1
    and 12, the year is the four-digit number (so between 0 and 9999), and
    the Year label is that year in decimal. *)
Theorem dated_rows_wellformed (csv : list Hepatitis.HepatitisRecord) :
  Forall (fun r =>
            exists a b d e f g,
              Hepatitis.token r
              = Some (String a (String b (String "-" (String d (String e
                        (String f (String g EmptyString))))))) /\
              Hepatitis.month (Hepatitis.Date r) = token_month a b /\
              Hepatitis.year (Hepatitis.Date r) = token_year d e f g /\
              1 <= Hepatitis.month (Hepatitis.Date r) <= 12 /\
              0 <= Hepatitis.year (Hepatitis.Date r) <= 9999 /\
              Hepatitis.Year r
              = Hepatitis.py_str (Hepatitis.year (Hepatitis.Date r)))
         (Hepatitis.df_hepatitis csv).
Proof.
  induction csv as [|x t IH]; simpl; [constructor|].
  destruct (Hepatitis.date_row x) as [r|] eqn:E; [|exact IH].
  constructor; [|exact IH].
  unfold Hepatitis.date_row in E.
  destruct (Hepatitis.extract_cell (Hepatitis.refPeriod x)) as [tok|] eqn:X;
    [|discriminate].
  destruct (Hepatitis.to_datetime (Some tok)) as [ts|] eqn:T; [|discriminate].
  injection E as <-. cbn [Hepatitis.token Hepatitis.Date Hepatitis.Year].
  unfold Hepatitis.extract_cell in X.
  destruct (Hepatitis.refPeriod x) as [s|]; [|discriminate].
  apply str_extract_some in X. destruct X as [Hshape _].
  destruct Hshape as (a & b & d & e & f & g & -> & Da & Db & Dd & De & Df & Dg).
  exists a, b, d, e, f, g.
  destruct (to_datetime_token a b d e f g ts Da Db Dd De Df Dg T) as (M & Y & R).
  pose proof (is_digit_val d Dd). pose proof (is_digit_val e De).
  pose proof (is_digit_val f Df). pose proof (is_digit_val g Dg).
  unfold token_year in *.
  repeat split; auto; lia.
Qed.

(** ** More on grouped sums *)

Lemma sumZ_perm (l l' : list Z) : Permutation l l' -> sumZ l = sumZ l'.
Proof. induction 1; simpl; lia. Qed.

Lemma StronglySorted_map {A B} (R : B -> B -> Prop) (f : A -> B) (l : list A) :
  StronglySorted R (map f l) <-> StronglySorted (fun a b => R (f a) (f b)) l.
Proof.
  induction l as [|x t IH]; simpl.
  - split; constructor.
  - split; intros H; inversion H as [|? ? Hs Ha]; subst.
    + constructor; [now apply IH | now rewrite Forall_map in Ha].
    + constructor; [now apply IH | now rewrite Forall_map].
Qed.

Section GroupByOrder.

Variable K : Type.
Variable cmp : K -> K -> comparison.
Hypothesis cmp_eq : forall a b, cmp a b = Eq -> a = b.
Hypothesis cmp_refl : forall a, cmp a a = Eq.
Hypothesis cmp_gt : forall a b, cmp a b = Gt -> cmp b a = Lt.
Hypothesis cmp_trans :
  forall a b c, cmp a b = Lt -> cmp b c = Lt -> cmp a c = Lt.

(** The groups do not depend on the order of the rows. *)
Lemma groupby_perm (rows rows' : list (K * Z)) :
  Permutation rows rows' -> groupby_sum cmp rows = groupby_sum cmp rows'.
Proof.
  intros P. apply (groupby_ext K cmp cmp_eq cmp_refl cmp_gt cmp_trans).
  - intros k. apply eq_true_iff_eq. unfold has_key.
    rewrite !existsb_exists. split; intros (x & Hx & E); exists x; split; auto.
    + now apply (Permutation_in _ P).
    + now apply (Permutation_in _ (Permutation_sym P)).
  - intros k. unfold group_total. rewrite !sum64_sumZ. f_equal.
    apply sumZ_perm, Permutation_map. now apply filter_perm.
Qed.

Lemma add_group_front (k : K) (v : Z) (acc : list (K * Z)) :
  Forall (fun x => cmp k x = Lt) (map fst acc) ->
  add_group cmp k v acc = (k, add64 0 v) :: acc.
Proof.
  destruct acc as [|[k' s] t]; simpl; [reflexivity|].
  intros H. inversion H as [|? ? H1 _]; subst. now rewrite H1.
Qed.

(** Filtering the groups by a condition on the key is grouping the rows
    that satisfy the condition. *)
Lemma add_group_filter (p : K -> bool) (k : K) (v : Z) (acc : list (K * Z)) :
  keys_ascending cmp acc ->
  filter (fun g => p (fst g)) (add_group cmp k v acc)
  = if p k then add_group cmp k v (filter (fun g => p (fst g)) acc)
    else filter (fun g => p (fst g)) acc.
Proof.
  unfold keys_ascending.
  induction acc as [|[k' s] t IH]; intros H.
  - simpl. now destruct (p k).
  - simpl in H. inversion H as [|? ? Hs Ha]; subst.
    cbn [add_group]. destruct (cmp k k') eqn:E.
    + apply cmp_eq in E. subst k'. cbn [filter fst].
      destruct (p k); [|reflexivity].
      cbn [add_group]. now rewrite cmp_refl.
    + cbn [filter fst]. destruct (p k) eqn:Pk; [|reflexivity].
      symmetry. apply add_group_front.
      assert (Hall : Forall (fun x => cmp k x = Lt) (map fst ((k', s) :: t))).
      { constructor; [exact E|].
        rewrite Forall_forall in Ha |- *. intros y Hy.
        eapply cmp_trans; [exact E | now apply Ha]. }
      rewrite Forall_forall in Hall |- *. intros y Hy. apply Hall.
      apply in_map_iff in Hy. destruct Hy as (g & <- & Hg).
      apply in_map. change (In g (filter (fun g => p (fst g)) ((k', s) :: t))) in Hg.
      now apply filter_In in Hg.
    + cbn [filter fst]. rewrite (IH Hs).
      destruct (p k'), (p k); cbn [add_group]; rewrite ?E; reflexivity.
Qed.

Lemma groupby_filter (p : K -> bool) (rows : list (K * Z)) :
  filter (fun g => p (fst g)) (groupby_sum cmp rows)
  = groupby_sum cmp (filter (fun g => p (fst g)) rows).
Proof.
  induction rows as [|[k v] t IH] using rev_ind; [reflexivity|].
  rewrite filter_app, groupby_sum_snoc, add_group_filter
    by apply (groupby_ascending K cmp cmp_eq cmp_gt cmp_trans).
  cbn [filter fst snd]. destruct (p k).
  - now rewrite groupby_sum_snoc, IH.
  - now rewrite app_nil_r, IH.
Qed.

End GroupByOrder.

(** ** Buckets *)

Lemma groups_by_date (csv : list Hepatitis.HepatitisRecord) :
  map by_date
    (groupby_sum Hepatitis.key_compare
       (date_year_rows (Hepatitis.df_hepatitis csv)))
  = groupby_sum Hepatitis.ts_compare (date_rows (Hepatitis.df_hepatitis csv)).
Proof. apply groupby_by_date, df_hepatitis_years. Qed.

(** X10.  The monthly buckets come in chronological order with one bucket
    per month, and the months of the buckets are exactly the months of the
    dated rows. *)
Theorem buckets_chronological (csv : list Hepatitis.HepatitisRecord) :
  StronglySorted date_before
    (Hepatitis.cases_over_time (Hepatitis.df_hepatitis csv)) /\
  (forall d,
      In d (map Hepatitis.b_Date
              (Hepatitis.cases_over_time (Hepatitis.df_hepatitis csv)))
      <-> In d (map Hepatitis.Date (Hepatitis.df_hepatitis csv))).
Proof.
  pose proof (groups_by_date csv) as E. unfold date_year_rows in E.
  split.
  - pose proof (groupby_ascending _ Hepatitis.ts_compare ts_cmp_eq ts_cmp_gt
                  ts_cmp_trans (date_rows (Hepatitis.df_hepatitis csv))) as H.
    rewrite <- E in H. unfold keys_ascending in H.
    rewrite map_map in H. apply StronglySorted_map in H.
    unfold Hepatitis.cases_over_time. apply StronglySorted_map. exact H.
  - intros d. unfold Hepatitis.cases_over_time.
    rewrite map_map.
    change (map (fun x => Hepatitis.b_Date (Hepatitis.bucket_of x)) ?G)
      with (map (fun x => fst (by_date x)) G).
    rewrite <- (map_map by_date fst), E.
    rewrite (groupby_keys _ Hepatitis.ts_compare ts_cmp_eq).
    unfold date_rows. rewrite map_map. reflexivity.
Qed.

Lemma date_rows_of_date (d : Hepatitis.Timestamp) (df : list Hepatitis.Dated) :
  map snd
    (filter (fun kv => match Hepatitis.ts_compare (fst kv) d with
                       | Eq => true
                       | _ => false
                       end) (date_rows df))
  = map Hepatitis.cases (filter (same_date d) df).
Proof.
  unfold date_rows, same_date.
  induction df as [|r t IH]; [reflexivity|].
  cbn -[Hepatitis.ts_compare] in *.
  destruct (Hepatitis.ts_compare (Hepatitis.Date r) d);
    cbn -[Hepatitis.ts_compare]; now rewrite IH.
Qed.

Lemma bucket_total_wrapped (csv : list Hepatitis.HepatitisRecord)
  (b : Hepatitis.CaseBucket) :
  In b (Hepatitis.cases_over_time (Hepatitis.df_hepatitis csv)) ->
  Hepatitis.b_cases b
  = wrap64 (sumZ (map Hepatitis.cases
                    (filter (same_date (Hepatitis.b_Date b))
                       (Hepatitis.df_hepatitis csv)))).
Proof.
  intros Hb. unfold Hepatitis.cases_over_time in Hb.
  apply in_map_iff in Hb. destruct Hb as (g & <- & Hg).
  assert (Hd : In (by_date g)
                  (groupby_sum Hepatitis.ts_compare
                     (date_rows (Hepatitis.df_hepatitis csv)))).
  { rewrite <- groups_by_date. now apply in_map. }
  apply (lookup_in _ _ ts_cmp_eq ts_cmp_refl) in Hd;
    [|apply (groupby_ascending _ _ ts_cmp_eq ts_cmp_gt ts_cmp_trans)].
  rewrite (lookup_groupby _ _ ts_cmp_eq ts_cmp_refl ts_cmp_gt ts_cmp_trans) in Hd.
  destruct (has_key _ _ _); [|discriminate].
  injection Hd as Hd. unfold group_total in Hd.
  rewrite date_rows_of_date, sum64_sumZ in Hd.
  cbn [Hepatitis.bucket_of Hepatitis.b_cases Hepatitis.b_Date].
  symmetry. exact Hd.
Qed.

(** X11.  The total of a monthly bucket is the sum of Number of cases over
    the dated rows of that month, exactly, whenever that sum fits the 64-bit
    column. *)
Theorem bucket_total_exact (csv : list Hepatitis.HepatitisRecord)
  (b : Hepatitis.CaseBucket) :
  In b (Hepatitis.cases_over_time (Hepatitis.df_hepatitis csv)) ->
  - 2 ^ 63 <= sumZ (map Hepatitis.cases
                      (filter (same_date (Hepatitis.b_Date b))
                         (Hepatitis.df_hepatitis csv))) < 2 ^ 63 ->
  Hepatitis.b_cases b
  = sumZ (map Hepatitis.cases
            (filter (same_date (Hepatitis.b_Date b))
               (Hepatitis.df_hepatitis csv))).
Proof.
  intros Hb Hr. rewrite (bucket_total_wrapped csv b Hb).
  now apply wrap64_small.
Qed.

Lemma bucket_total_exact_witness :
  Hepatitis.b_cases (Hepatitis.mkBucket (Hepatitis.mkTs 2015 1) "2015" 11)
  = sumZ (map Hepatitis.cases
            (filter (same_date
                       (Hepatitis.b_Date
                          (Hepatitis.mkBucket (Hepatitis.mkTs 2015 1) "2015" 11)))
               (Hepatitis.df_hepatitis mixed_hepatitis))).
Proof.
  apply (bucket_total_exact mixed_hepatitis
           (Hepatitis.mkBucket (Hepatitis.mkTs 2015 1) "2015" 11)).
  - vm_compute. left. reflexivity.
  - vm_compute. split; [discriminate | reflexivity].
Defined.

Lemma filtered_bucket_cases (sel : list string)
  (G : list ((Hepatitis.Timestamp * string) * Z)) :
  map Hepatitis.b_cases
    (Hepatitis.cases_filtered (map Hepatitis.bucket_of G) sel)
  = map snd (filter (fun g => Hepatitis.isin sel (snd (fst g))) G).
Proof.
  unfold Hepatitis.cases_filtered.
  induction G as [|[[d y] s] t IH]; [reflexivity|].
  cbn -[Hepatitis.isin] in *.
  destruct (Hepatitis.isin sel y); cbn -[Hepatitis.isin]; now rewrite IH.
Qed.

Lemma retained_cases (sel : list string) (df : list Hepatitis.Dated) :
  map snd (filter (fun g => Hepatitis.isin sel (snd (fst g))) (date_year_rows df))
  = map Hepatitis.cases (retained sel df).
Proof.
  unfold date_year_rows, retained.
  induction df as [|r t IH]; [reflexivity|].
  cbn -[Hepatitis.isin] in *.
  destruct (Hepatitis.isin sel (Hepatitis.Year r)); cbn -[Hepatitis.isin];
    now rewrite IH.
Qed.

(** X12.  Grouping loses and invents no cases: for any selection of years,
    the monthly bars and the yearly bars both add up (in the 64-bit column)
    to the sum of Number of cases over the dated rows of the selected
    years. *)
Theorem totals_conserved (csv : list Hepatitis.HepatitisRecord)
  (sel : list string) :
  wrap64 (sumZ (map Hepatitis.b_cases
                  (Hepatitis.cases_filtered
                     (Hepatitis.cases_over_time (Hepatitis.df_hepatitis csv))
                     sel)))
  = wrap64 (sumZ (map Hepatitis.cases
                    (retained sel (Hepatitis.df_hepatitis csv)))) /\
  wrap64 (sumZ (map snd
                  (Hepatitis.yearly_cases
                     (Hepatitis.cases_filtered
                        (Hepatitis.cases_over_time (Hepatitis.df_hepatitis csv))
                        sel))))
  = wrap64 (sumZ (map Hepatitis.cases
                    (retained sel (Hepatitis.df_hepatitis csv)))).
Proof.
  assert (M : wrap64 (sumZ (map Hepatitis.b_cases
                  (Hepatitis.cases_filtered
                     (Hepatitis.cases_over_time (Hepatitis.df_hepatitis csv))
                     sel)))
              = wrap64 (sumZ (map Hepatitis.cases
                                (retained sel (Hepatitis.df_hepatitis csv))))).
  { unfold Hepatitis.cases_over_time.
    rewrite filtered_bucket_cases, <- retained_cases.
    apply (groupby_part _ Hepatitis.key_compare key_cmp_eq
             (fun key => Hepatitis.isin sel (snd key))). }
  split; [exact M|].
  rewrite <- M. unfold Hepatitis.yearly_cases.
  pose proof (groupby_part _ String_as_OT.compare str_cmp_eq (fun _ => true)
                (map (fun b => (Hepatitis.b_Year b, Hepatitis.b_cases b))
                   (Hepatitis.cases_filtered
                      (Hepatitis.cases_over_time (Hepatitis.df_hepatitis csv))
                      sel))) as H.
  rewrite !filter_all in H by (apply Forall_forall; reflexivity).
  rewrite H, map_map. reflexivity.
Qed.

(** ** The year selector *)

Lemma unique_in (l : list string) (y : string) :
  In y (Hepatitis.unique l) <-> In y l.
Proof.
  induction l as [|x t IH]; simpl; [tauto|].
  rewrite filter_In, IH.
  destruct (String.eqb_spec y x) as [->|Hne]; simpl; intuition congruence.
Qed.

Lemma unique_nodup (l : list string) : NoDup (Hepatitis.unique l).
Proof.
  induction l as [|x t IH]; simpl; constructor.
  - rewrite filter_In. intros [_ H]. now rewrite String.eqb_refl in H.
  - now apply NoDup_filter.
Qed.

Lemma insert_str_perm (x : string) (l : list string) :
  Permutation (Hepatitis.insert_str x l) (x :: l).
Proof.
  induction l as [|y t IH]; simpl; [apply Permutation_refl|].
  destruct (String_as_OT.compare x y); try apply Permutation_refl.
  eapply perm_trans; [apply perm_skip, IH | apply perm_swap].
Qed.

Lemma sorted_perm (l : list string) : Permutation (Hepatitis.sorted l) l.
Proof.
  induction l as [|x t IH]; simpl; [constructor|].
  eapply perm_trans; [apply insert_str_perm | now apply perm_skip].
Qed.

Lemma str_le_trans (a b c : string) :
  String_as_OT.compare a b <> Gt -> String_as_OT.compare b c <> Gt ->
  String_as_OT.compare a c <> Gt.
Proof.
  intros H1 H2.
  destruct (String_as_OT.compare a b) eqn:E1; [| |congruence].
  - apply str_cmp_eq in E1. now subst.
  - destruct (String_as_OT.compare b c) eqn:E2; [| |congruence].
    + apply str_cmp_eq in E2. subst. congruence.
    + rewrite (str_cmp_trans _ _ _ E1 E2). discriminate.
Qed.

Lemma insert_str_sorted (x : string) (l : list string) :
  StronglySorted (fun a b => String_as_OT.compare a b <> Gt) l ->
  StronglySorted (fun a b => String_as_OT.compare a b <> Gt)
    (Hepatitis.insert_str x l).
Proof.
  induction 1 as [|y t Hs IH Hy]; simpl; [repeat constructor|].
  assert (Hcons : StronglySorted (fun a b => String_as_OT.compare a b <> Gt)
                    (y :: t)) by now constructor.
  destruct (String_as_OT.compare x y) eqn:E.
  - constructor; [exact Hcons|]. constructor; [congruence|].
    rewrite Forall_forall in Hy |- *. intros z Hz.
    apply (str_le_trans x y z); [congruence | now apply Hy].
  - constructor; [exact Hcons|]. constructor; [congruence|].
    rewrite Forall_forall in Hy |- *. intros z Hz.
    apply (str_le_trans x y z); [congruence | now apply Hy].
  - constructor; [exact IH|].
    rewrite Forall_forall in Hy |- *. intros z Hz.
    apply (Permutation_in _ (insert_str_perm x t)) in Hz.
    destruct Hz as [<-|Hz]; [|now apply Hy].
    rewrite (str_cmp_gt _ _ E). discriminate.
Qed.

Lemma sorted_ascending (l : list string) :
  StronglySorted (fun a b => String_as_OT.compare a b <> Gt) (Hepatitis.sorted l).
Proof.
  induction l as [|x t IH]; simpl; [constructor | now apply insert_str_sorted].
Qed.

Lemma strict_of_nodup (l : list string) :
  StronglySorted (fun a b => String_as_OT.compare a b <> Gt) l ->
  NoDup l -> StronglySorted str_lt l.
Proof.
  induction 1 as [|x t Hs IH Hx]; intros Hnd; [constructor|].
  inversion Hnd as [|? ? Hin Ht]; subst.
  constructor; [now apply IH|].
  rewrite Forall_forall in Hx |- *. intros y Hy. unfold str_lt.
  specialize (Hx y Hy).
  destruct (String_as_OT.compare x y) eqn:E; [|reflexivity|congruence].
  apply str_cmp_eq in E. subst. contradiction.
Qed.

Lemma years_available_in (cot : list Hepatitis.CaseBucket) (y : string) :
  In y (Hepatitis.years_available cot) <-> In y (map Hepatitis.b_Year cot).
Proof.
  unfold Hepatitis.years_available. split; intros H.
  - apply unique_in. eapply Permutation_in; [apply sorted_perm | exact H].
  - eapply Permutation_in; [apply Permutation_sym, sorted_perm|].
    now apply unique_in.
Qed.

(** X13.  The options of the year selector are the distinct Year labels of
    the buckets, each once, in strictly ascending order. *)
Theorem years_available_spec (cot : list Hepatitis.CaseBucket) :
  StronglySorted str_lt (Hepatitis.years_available cot) /\
  NoDup (Hepatitis.years_available cot) /\
  (forall y, In y (Hepatitis.years_available cot)
             <-> In y (map Hepatitis.b_Year cot)).
Proof.
  assert (Hnd : NoDup (Hepatitis.years_available cot)).
  { unfold Hepatitis.years_available.
    eapply Permutation_NoDup; [apply Permutation_sym, sorted_perm|].
    apply unique_nodup. }
  split; [|split; [exact Hnd | apply years_available_in]].
  apply strict_of_nodup; [apply sorted_ascending | exact Hnd].
Qed.

(** X14.  The default selection (all available years) filters nothing: the
    filtered view is the whole bucket table, and with an untouched selector
    either view is drawn over all buckets. *)
Theorem default_selection_keeps_all (csv : list Hepatitis.HepatitisRecord)
  (sl : option (Z * Z)) (rd : option Hepatitis.View) (b : bool)
  (agg : Hepatitis.View) :
  Hepatitis.cases_filtered
    (Hepatitis.cases_over_time (Hepatitis.df_hepatitis csv))
    (Hepatitis.years_available
       (Hepatitis.cases_over_time (Hepatitis.df_hepatitis csv)))
  = Hepatitis.cases_over_time (Hepatitis.df_hepatitis csv) /\
  App.hepatitis_bars csv
    (App.multiselect_value (App.mkSession sl None rd b)
       (Hepatitis.years_available
          (Hepatitis.cases_over_time (Hepatitis.df_hepatitis csv))))
    agg
  = Hepatitis.figure agg
      (Hepatitis.cases_over_time (Hepatitis.df_hepatitis csv)).
Proof.
  assert (E : forall cot,
             Hepatitis.cases_filtered cot (Hepatitis.years_available cot) = cot).
  { intros cot. unfold Hepatitis.cases_filtered. apply filter_all.
    apply Forall_forall. intros x Hx.
    apply isin_true, years_available_in. now apply in_map. }
  split; [apply E|].
  unfold App.hepatitis_bars, App.multiselect_value. cbn [App.multiselect_state].
  now rewrite E.
Qed.

(** X15.  The selection acts as a set of years of the data: two selections
    that contain the same years among those present in the buckets give the
    same filtered view, whatever their order, repetitions or extra years. *)
Theorem selection_is_a_set (cot : list Hepatitis.CaseBucket)
  (sel1 sel2 : list string) :
  (forall y, In y (map Hepatitis.b_Year cot) -> (In y sel1 <-> In y sel2)) ->
  Hepatitis.cases_filtered cot sel1 = Hepatitis.cases_filtered cot sel2.
Proof.
  intros H. unfold Hepatitis.cases_filtered. apply filter_ext_in.
  intros x Hx. apply eq_true_iff_eq. rewrite !isin_true.
  apply H. now apply in_map.
Qed.

Lemma selection_is_a_set_witness :
  Hepatitis.cases_filtered
    [Hepatitis.mkBucket (Hepatitis.mkTs 2015 1) "2015" 11;
     Hepatitis.mkBucket (Hepatitis.mkTs 2016 3) "2016" 7]
    ["2016"%string; "1999"%string; "2016"%string]
  = Hepatitis.cases_filtered
      [Hepatitis.mkBucket (Hepatitis.mkTs 2015 1) "2015" 11;
       Hepatitis.mkBucket (Hepatitis.mkTs 2016 3) "2016" 7]
      ["2016"%string].
Proof.
  apply (selection_is_a_set
           [Hepatitis.mkBucket (Hepatitis.mkTs 2015 1) "2015" 11;
            Hepatitis.mkBucket (Hepatitis.mkTs 2016 3) "2016" 7]
           ["2016"%string; "1999"%string; "2016"%string] ["2016"%string]).
  simpl. intros y [<-|[<-|[]]]; split; simpl; intuition discriminate.
Defined.

(** ** Filtering, grouping and the order of the rows *)

Lemma filter_buckets (sel : list string)
  (G : list ((Hepatitis.Timestamp * string) * Z)) :
  Hepatitis.cases_filtered (map Hepatitis.bucket_of G) sel
  = map Hepatitis.bucket_of
      (filter (fun g => Hepatitis.isin sel (snd (fst g))) G).
Proof.
  unfold Hepatitis.cases_filtered.
  induction G as [|[[d y] s] t IH]; [reflexivity|].
  cbn -[Hepatitis.isin] in *.
  destruct (Hepatitis.isin sel y); cbn -[Hepatitis.isin]; now rewrite IH.
Qed.

Lemma filter_date_year_rows (sel : list string) (df : list Hepatitis.Dated) :
  filter (fun g => Hepatitis.isin sel (snd (fst g))) (date_year_rows df)
  = date_year_rows (retained sel df).
Proof.
  unfold date_year_rows, retained.
  induction df as [|r t IH]; [reflexivity|].
  cbn -[Hepatitis.isin] in *.
  destruct (Hepatitis.isin sel (Hepatitis.Year r)); cbn -[Hepatitis.isin];
    now rewrite IH.
Qed.

(** X16.  Filtering commutes with grouping: keeping the buckets of the
    selected years is the same as bucketing only the dated rows of the
    selected years, so no bucket holds cases of a deselected year. *)
Theorem filter_then_group (df : list Hepatitis.Dated) (sel : list string) :
  Hepatitis.cases_filtered (Hepatitis.cases_over_time df) sel
  = Hepatitis.cases_over_time (retained sel df).
Proof.
  unfold Hepatitis.cases_over_time.
  change (map (fun r => (Hepatitis.Date r, Hepatitis.Year r, Hepatitis.cases r)) ?l)
    with (date_year_rows l).
  rewrite filter_buckets. f_equal.
  pose proof (groupby_filter _ Hepatitis.key_compare key_cmp_eq key_cmp_refl
                key_cmp_gt key_cmp_trans
                (fun key => Hepatitis.isin sel (snd key))
                (date_year_rows df)) as H.
  cbv beta in H. rewrite H. now rewrite filter_date_year_rows.
Qed.

Lemma df_hepatitis_perm (csv csv' : list Hepatitis.HepatitisRecord) :
  Permutation csv csv' ->
  Permutation (Hepatitis.df_hepatitis csv) (Hepatitis.df_hepatitis csv').
Proof.
  induction 1 as [|x l l' _ IH|x y l|l l' l'' _ IH1 _ IH2]; simpl.
  - constructor.
  - destruct (Hepatitis.date_row x); [now apply perm_skip | exact IH].
  - destruct (Hepatitis.date_row x), (Hepatitis.date_row y);
      try apply Permutation_refl. apply perm_swap.
  - eapply perm_trans; eassumption.
Qed.

(** X17.  The order of the rows in the hepatitis CSV does not matter: a
    rearranged table gives the same buckets, the same selector options and
    the same bars in either view. *)
Theorem row_order_irrelevant_hepatitis
  (csv csv' : list Hepatitis.HepatitisRecord) :
  Permutation csv csv' ->
  Hepatitis.cases_over_time (Hepatitis.df_hepatitis csv)
  = Hepatitis.cases_over_time (Hepatitis.df_hepatitis csv') /\
  Hepatitis.years_available
    (Hepatitis.cases_over_time (Hepatitis.df_hepatitis csv))
  = Hepatitis.years_available
      (Hepatitis.cases_over_time (Hepatitis.df_hepatitis csv')) /\
  (forall sel agg,
      App.hepatitis_bars csv sel agg = App.hepatitis_bars csv' sel agg).
Proof.
  intros P.
  assert (E : Hepatitis.cases_over_time (Hepatitis.df_hepatitis csv)
              = Hepatitis.cases_over_time (Hepatitis.df_hepatitis csv')).
  { unfold Hepatitis.cases_over_time. f_equal.
    apply (groupby_perm _ Hepatitis.key_compare key_cmp_eq key_cmp_refl
             key_cmp_gt key_cmp_trans).
    apply Permutation_map. now apply df_hepatitis_perm. }
  unfold App.hepatitis_bars. rewrite E. repeat split; reflexivity.
Qed.

Lemma row_order_irrelevant_hepatitis_witness :
  Hepatitis.cases_over_time (Hepatitis.df_hepatitis mixed_hepatitis)
  = Hepatitis.cases_over_time (Hepatitis.df_hepatitis (rev mixed_hepatitis)) /\
  Hepatitis.years_available
    (Hepatitis.cases_over_time (Hepatitis.df_hepatitis mixed_hepatitis))
  = Hepatitis.years_available
      (Hepatitis.cases_over_time
         (Hepatitis.df_hepatitis (rev mixed_hepatitis))) /\
  (forall sel agg,
      App.hepatitis_bars mixed_hepatitis sel agg
      = App.hepatitis_bars (rev mixed_hepatitis) sel agg).
Proof.
  apply (row_order_irrelevant_hepatitis mixed_hepatitis (rev mixed_hepatitis)).
  apply Permutation_rev.
Defined.

(** ** The closing message *)

Lemma append_assoc (a b c : string) :
  ((a ++ b) ++ c)%string = (a ++ (b ++ c))%string.
Proof. induction a as [|x a IH]; simpl; [reflexivity | now rewrite IH]. Qed.

Lemma reveal_text (words : list string) :
  forall (text : string) (p : list App.Element) (e : App.Element) (c : Z),
    App.reveal words text (App.mkWorld (p ++ [e]) c)
    = (App.mkWorld
         (p ++ [match words with
                | [] => e
                | _ => App.Success (text ++ spaced words)
                end])
         (c + 150 * Z.of_nat (List.length words)), Ok tt).
Proof.
  induction words as [|word rest IH]; intros text p e c.
  - simpl. now rewrite Z.add_0_r.
  - cbn [App.reveal].
    unfold App.bind at 1. unfold App.placeholder_success at 1.
    cbn [App.page App.clock]. rewrite removelast_last.
    unfold App.bind at 1. unfold App.sleep at 1. cbn [App.page App.clock].
    rewrite IH. f_equal. f_equal.
    + destruct rest as [|w' rest'].
      * reflexivity.
      * do 3 f_equal. now rewrite !append_assoc.
    + rewrite <- Z.add_assoc. f_equal.
      change (List.length (word :: rest)) with (S (List.length rest)). lia.
Qed.

(** X18.  The reveal loop rewrites one placeholder: for any words it leaves
    the rest of the page alone, ends with the words each followed by a
    space, and takes 150 ms per word.  For the closing message a pressed
    button adds the button and one box holding the message plus a trailing
    space after 1650 ms; an unpressed button adds only the button. *)
Theorem closing_message_reveal (sl : option (Z * Z)) (ms : option (list string))
  (rd : option Hepatitis.View) (w : App.World) :
  (forall word rest text p e c,
      App.reveal (word :: rest) text (App.mkWorld (p ++ [e]) c)
      = (App.mkWorld (p ++ [App.Success (text ++ spaced (word :: rest))])
           (c + 150 * Z.of_nat (List.length (word :: rest))), Ok tt)) /\
  App.closing (App.mkSession sl ms rd true) w
  = (App.mkWorld
       (App.page w ++ [App.Button; App.Success (App.message ++ " ")])
       (App.clock w + 1650), Ok tt) /\
  App.closing (App.mkSession sl ms rd false) w
  = (App.mkWorld (App.page w ++ [App.Button]) (App.clock w), Ok tt).
Proof.
  split; [|split].
  - intros word rest text p e c. apply (reveal_text (word :: rest)).
  - unfold App.closing, App.st_button.
    unfold App.bind at 1. unfold App.emit at 1. cbn [App.page App.clock].
    unfold App.bind at 1. unfold App.ret at 1. cbn [App.button_state].
    unfold App.bind at 1. unfold App.emit at 1. cbn [App.page App.clock].
    rewrite reveal_text.
    assert (Hw : App.split App.message <> []) by (vm_compute; discriminate).
    assert (Ht : (EmptyString ++ spaced (App.split App.message))%string
                 = (App.message ++ " ")%string) by (vm_compute; reflexivity).
    assert (Hn : 150 * Z.of_nat (List.length (App.split App.message)) = 1650)
      by (vm_compute; reflexivity).
    rewrite Hn. destruct (App.split App.message) as [|x t]; [congruence|].
    rewrite Ht, <- app_assoc. reflexivity.
  - reflexivity.
Qed.
